(** * glow25-study: the [GET /users] app-proxy endpoint of [server/user.js]

    A shallow embedding of the request handler and of its two helpers,
    [fetchCustomerData] and [fetchProductData], together with the
    properties of the endpoint that the specification states.

    The remote GraphQL client and the MySQL connection are the handler's
    environment: they are a [world], a pair of functions that say what
    each call answers.  A run of the handler is the list of the effects
    it has on that environment and on the HTTP response, in the order in
    which they happen. *)

From Stdlib Require Import List String ZArith DecimalString.
Import ListNotations.
Local Open Scope string_scope.
Local Open Scope Z_scope.

Set Implicit Arguments.
Local Set Warnings "-register-all".

(** ** JavaScript values

    The data the handler touches is what the query-string parser, the
    GraphQL client and the MySQL driver hand over: parsed JSON, and
    [undefined] for what is absent.  Numbers are the integers (identifiers
    and image sizes); an array carries, next to its items, the named
    properties that an assignment may have put on it. *)

Inductive value : Type :=
| VUndefined
| VNull
| VBool (b : bool)
| VNum (n : Z)
| VStr (s : string)
| VArr (items : list value) (props : list (string * value))
| VObj (fields : list (string * value)).

(** What a [throw] or a rejected promise carries. *)
Inductive exn : Type :=
| TypeError
| Error (message : string)
| Thrown (v : value).

(** [!v] is [negb (truthy v)]. *)
Definition truthy (v : value) : bool :=
  match v with
  | VUndefined | VNull => false
  | VBool b => b
  | VNum n => negb (n =? 0)
  | VStr s => negb (String.eqb s "")
  | VArr _ _ | VObj _ => true
  end.

Definition nullish (v : value) : bool :=
  match v with
  | VUndefined | VNull => true
  | _ => false
  end.

Fixpoint lookup (k : string) (fs : list (string * value)) : value :=
  match fs with
  | [] => VUndefined
  | (k', v) :: rest => if String.eqb k k' then v else lookup k rest
  end.

Fixpoint update (k : string) (v : value) (fs : list (string * value))
  : list (string * value) :=
  match fs with
  | [] => [(k, v)]
  | (k', v') :: rest =>
      if String.eqb k k' then (k, v) :: rest else (k', v') :: update k v rest
  end.

Definition join (sep : string) (parts : list string) : string :=
  match parts with
  | [] => ""
  | p :: rest => fold_left (fun acc q => acc ++ sep ++ q) rest p
  end.

(** The string a template literal [`${v}`] puts in place of [v].  This is
    JavaScript's string on the [printable] values defined next.  Outside
    them it is not: a number of size 2^53 or more prints by the shortest
    digits that read back as the same double, or with an exponent, and an
    object with a [toString] of its own that cannot be called makes the
    literal throw. *)
Fixpoint to_string (v : value) : string :=
  match v with
  | VUndefined => "undefined"
  | VNull => "null"
  | VBool true => "true"
  | VBool false => "false"
  | VNum n => NilZero.string_of_int (Z.to_int n)
  | VStr s => s
  | VArr items _ =>
      join "," (map (fun x => if nullish x then "" else to_string x) items)
  | VObj _ => "[object Object]"
  end.

(** Whether one of [names] is a key of [fs]. *)
Definition shadows (names : list string) (fs : list (string * value)) : bool :=
  existsb (fun kv => existsb (String.eqb (fst kv)) names) fs.

(** The values on which [to_string] is the string of JavaScript: safe
    integers, strings, booleans, [null], [undefined], objects that leave
    the inherited [toString] alone, and arrays of such values that leave
    [toString] and [join] alone. *)
Fixpoint printable (v : value) : bool :=
  match v with
  | VNum n => (- 2 ^ 53 <? n) && (n <? 2 ^ 53)
  | VArr items props =>
      forallb printable items &&
      negb (shadows ["toString"; "valueOf"; "join"] props)
  | VObj fields => negb (shadows ["toString"; "valueOf"] fields)
  | VUndefined | VNull | VBool _ | VStr _ => true
  end.

(** ** Effects

    What one request can be seen to do, from outside the handler. *)

(** The three GraphQL documents of the file; each carries the identifier
    that the template literal has interpolated into it. *)
Inductive gql_request : Type :=
| CustomerById (id : string)       (* customer(id: "${customerId}") { id firstName image { src } } *)
| ProductById (id : string)        (* product(id: "${productId}") { id title description onlineStoreUrl } *)
| ProductImageList (productId : string). (* media(first: 1, query: "media_type:IMAGE", sortKey: POSITION) *)

Inductive event : Type :=
| RemoteCall (q : gql_request)            (* client.query({...}) *)
| StoreQuery (param : value)              (* db.query(SELECT ..., [param], cb) *)
| ConsoleError (label : string) (e : exn) (* console.error(label, e) *)
| Respond (status : Z) (body : value)     (* res.status(status).json(body) *)
| UnhandledRejection (e : exn).           (* a rejected promise nobody handles *)

(** What a call of [client.query] does: it throws before it returns, or
    it returns a promise that resolves or rejects. *)
Inductive call_outcome : Type :=
| Throws (e : exn)
| Resolves (response : value)
| Rejects (e : exn).

(** What the driver passes to the callback of [db.query]: [(err, results)]. *)
Inductive db_outcome : Type :=
| DbError (err : exn)
| DbRows (results : list value).

Record world : Type := World {
  client_query : gql_request -> call_outcome;
  db_query : value -> db_outcome
}.

(** A computation: the events it causes right away ([now]), the events of
    the promise chains it has started and left behind ([later]), and how
    it settles: [inl e] is a throw or a rejection, [inr a] a return or a
    fulfilment. *)
Record js (A : Type) : Type := Js {
  now : list event;
  later : list event;
  settled : exn + A
}.

Arguments Js {A} _ _ _.

Definition ret {A} (a : A) : js A := Js [] [] (inr a).
Definition throw {A} (e : exn) : js A := Js [] [] (inl e).
Definition emit (ev : event) : js unit := Js [ev] [] (inr tt).

Definition bind {A B} (m : js A) (f : A -> js B) : js B :=
  match settled m with
  | inl e => Js (now m) (later m) (inl e)
  | inr a =>
      let r := f a in
      Js (now m ++ now r) (later m ++ later r) (settled r)
  end.

(** [try { m } catch (e) { h e }], and [p.catch(h)] on a promise. *)
Definition try_catch {A} (m : js A) (h : exn -> js A) : js A :=
  match settled m with
  | inr _ => m
  | inl e =>
      let r := h e in
      Js (now m ++ now r) (later m ++ later r) (settled r)
  end.

(** A promise chain that is started and neither awaited nor returned: all
    it does happens after the code that started it has gone on, and a
    rejection at its end has no handler. *)
Definition unhandled {A} (r : exn + A) : list event :=
  match r with
  | inl e => [UnhandledRejection e]
  | inr _ => []
  end.

Definition detach {A} (m : js A) : js unit :=
  Js [] (now m ++ later m ++ unhandled (settled m)) (inr tt).

Definition trace {A} (m : js A) : list event := now m ++ later m.

Declare Scope js_scope.
Delimit Scope js_scope with js.
Notation "x <- m ;; k" := (bind m (fun x => k))
  (at level 61, m at next level, right associativity) : js_scope.
Notation "m ;; k" := (bind m (fun _ => k))
  (at level 61, right associativity) : js_scope.
Local Open Scope js_scope.

(** ** Primitive operations *)

(** [v.k]: a [TypeError] on [undefined] and [null]. *)
Definition get_prop (v : value) (k : string) : js value :=
  match v with
  | VUndefined | VNull => throw TypeError
  | VObj fs => ret (lookup k fs)
  | VArr _ ps => ret (lookup k ps)
  | VBool _ | VNum _ | VStr _ => ret VUndefined
  end.

(** [v[0]]. *)
Definition get_first (v : value) : js value :=
  match v with
  | VUndefined | VNull => throw TypeError
  | VArr items _ => ret (hd VUndefined items)
  | VObj fs => ret (lookup "0" fs)
  | VStr (String c _) => ret (VStr (String c EmptyString))
  | VStr EmptyString | VBool _ | VNum _ => ret VUndefined
  end.

(** [v?.k]. *)
Definition get_prop_opt (v : value) (k : string) : js value :=
  if nullish v then ret VUndefined else get_prop v k.

(** [v.k = x] in strict mode (the file is an ES module); gives [v] as it
    is after the assignment. *)
Definition set_prop (v : value) (k : string) (x : value) : js value :=
  match v with
  | VObj fs => ret (VObj (update k x fs))
  | VArr items ps => ret (VArr items (update k x ps))
  | VUndefined | VNull | VBool _ | VNum _ | VStr _ => throw TypeError
  end.

Definition console_error (label : string) (e : exn) : js unit :=
  emit (ConsoleError label e).

(** [res.status(status).json(body)]. *)
Definition respond (status : Z) (body : value) : js unit :=
  emit (Respond status body).

Definition error_body (message : string) : value :=
  VObj [("error", VStr message)].

(** [client.query(q)]: the call is seen, and what comes back is the
    promise, here as the way it settles. *)
Definition query (w : world) (q : gql_request) : js (exn + value) :=
  emit (RemoteCall q);;
  match client_query w q with
  | Throws e => throw e
  | Resolves response => ret (inr response)
  | Rejects e => ret (inl e)
  end.

(** [await p]. *)
Definition await {A} (p : exn + A) : js A := Js [] [] p.

(** [Promise.all([p, q])]: fulfilled when both are, rejected when one is
    rejected.  Where both are rejected, [Promise.all] rejects with the
    error of the one that is rejected first in time, which the outcomes
    of a [world] do not tell: the definition takes the first promise's,
    and the statements about a rejection of [Promise.all] are made for
    worlds in which one of the two promises is rejected. *)
Definition promise_all2 {A} (p q : exn + A) : js (A * A) :=
  match p, q with
  | inl e, _ => throw e
  | inr _, inl e => throw e
  | inr a, inr b => ret (a, b)
  end.

(** ** [fetchCustomerData] (lines 158-176) *)

Definition fetchCustomerData (w : world) (customerId : value) : js value :=
  try_catch
    (p <- query w (CustomerById (to_string customerId));;
     response <- await p;;
     data <- get_prop response "data";;
     get_prop data "customer")
    (fun error =>
       console_error "Error fetching customer data:" error;;
       throw (Error "Failed to fetch customer data")).

(** ** [fetchProductData] (lines 186-244) *)

(** [response.data.product] (line 223) and
    [response.data.product.media.nodes[0]] (line 227). *)
Definition response_product (response : value) : js value :=
  data <- get_prop response "data";;
  get_prop data "product".

Definition response_first_image (response : value) : js value :=
  data <- get_prop response "data";;
  product <- get_prop data "product";;
  media <- get_prop product "media";;
  nodes <- get_prop media "nodes";;
  get_first nodes.

(** The callback given to [Promise.all([productData, productImage]).then]
    (lines 222-239). *)
Definition merge_responses (responses : value * value) : js value :=
  product <- response_product (fst responses);;
  if negb (truthy product) then ret VNull (* Product not found *)
  else
    image <- response_first_image (snd responses);;
    if truthy image then
      id <- get_prop image "id";;
      alt <- get_prop image "alt";;
      inner <- get_prop image "image";;
      url <- get_prop inner "url";;
      width <- get_prop inner "width";;
      height <- get_prop inner "height";;
      set_prop product "image"
        (VObj [("id", id); ("alt", alt); ("url", url);
               ("width", width); ("height", height)])
    else ret product.

(** The code that runs while the promise [p] is held in a local variable
    and has no handler yet: if that code throws, [p] never gets one, and
    its rejection, if it is rejected, goes unhandled. *)
Definition holding {A B} (p : exn + A) (m : js B) : js B :=
  match settled m with
  | inl e => Js (now m) (later m ++ unhandled p) (inl e)
  | inr _ => m
  end.

(** The function body: both queries are sent, the [Promise.all(...).then]
    chain is an expression statement (no [await], no [return]), and the
    [try] block ends without a [return].  [Promise.all] is what gives the
    first promise a handler; a second call that throws comes before it. *)
Definition fetchProductData (w : world) (productId : value) : js value :=
  try_catch
    (productData <- query w (ProductById (to_string productId));;
     holding productData
       (productImage <- query w (ProductImageList (to_string productId));;
        detach (responses <- promise_all2 productData productImage;;
                merge_responses responses);;
        ret VUndefined))
    (fun error =>
       console_error "Error fetching product data:" error;;
       throw (Error "Failed to fetch product data")).

(** ** The handler of [GET /users] (lines 63-142)

    The handler calls the module's [fetchProductData]; the section takes
    the product fetch as a variable, so that what the handler does with
    the product it is given can be stated for any product fetch. *)

Section Handler.

Variable fetchProduct : world -> value -> js value.
Variable w : world.

(** The [then] callback of the product fetch (lines 112-133);
    [res.json] answers with status 200. *)
Definition on_product (firstName profileImage productData : value) : js unit :=
  if negb (truthy productData) then
    respond 404 (error_body "Product not found")
  else
    id <- get_prop productData "id";;
    title <- get_prop productData "title";;
    description <- get_prop productData "description";;
    onlineStoreUrl <- get_prop productData "onlineStoreUrl";;
    image <- get_prop productData "image";;
    imageField <-
      (if truthy image then
         iid <- get_prop image "id";;
         alt <- get_prop image "alt";;
         url <- get_prop image "url";;
         width <- get_prop image "width";;
         height <- get_prop image "height";;
         ret (VObj [("id", iid); ("alt", alt); ("url", url);
                    ("width", width); ("height", height)])
       else ret VNull);;
    respond 200
      (VObj [("firstName", firstName);
             ("profileImage", profileImage);
             ("product",
              VObj [("id", id); ("title", title);
                    ("description", description);
                    ("onlineStoreUrl", onlineStoreUrl);
                    ("image", imageField)])]).

(** [fetchProductData(id).then(...).catch(...).catch(...)] (lines 112-139):
    the second [catch] hangs on the promise of the first one. *)
Definition product_chain (firstName profileImage favoriteProductId : value)
  : js unit :=
  try_catch
    (try_catch
       (productData <- fetchProduct w favoriteProductId;;
        on_product firstName profileImage productData)
       (fun error => console_error "Error fetching product data:" error))
    (fun error =>
       console_error "Error fetching customer data:" error;;
       respond 500 (error_body "Failed to fetch customer data")).

(** The callback of [db.query] (lines 92-140). *)
Definition on_results (firstName profileImage : value) (r : db_outcome)
  : js unit :=
  match r with
  | DbError _ => respond 500 (error_body "Database query error")
  | DbRows results =>
      if (List.length results =? 0)%nat then
        respond 404 (error_body "Favorite product not found")
      else
        favoriteProductId <-
          get_prop_opt (hd VUndefined results) "favorite_product_id";;
        detach (product_chain firstName profileImage favoriteProductId)
  end.

(** The [then] callback of the customer fetch (lines 75-141). *)
Definition on_customer (userId customerData : value) : js unit :=
  if negb (truthy customerData) then
    respond 404 (error_body "Customer not found")
  else
    firstName <- get_prop customerData "firstName";;
    profileImage <- get_prop customerData "image";;
    emit (StoreQuery userId);;
    on_results firstName profileImage (db_query w userId).

(** The route handler; [req_query] is [req.query].  The chain
    [fetchCustomerData(userId).then(...)] has no [catch] of its own. *)
Definition users_handler_with (req_query : list (string * value)) : js unit :=
  let userId := lookup "user_id" req_query in
  if negb (truthy userId) then
    respond 400 (error_body "Missing user_id query parameter")
  else
    detach (customerData <- fetchCustomerData w userId;;
            on_customer userId customerData).

End Handler.

Definition users_handler : world -> list (string * value) -> js unit :=
  users_handler_with fetchProductData.

(** The responses a run sends, in order. *)
Fixpoint responses (evs : list event) : list (Z * value) :=
  match evs with
  | [] => []
  | Respond status body :: rest => (status, body) :: responses rest
  | _ :: rest => responses rest
  end.

(** The calls a run makes to the remote API, and to the local store. *)
Fixpoint remote_calls (evs : list event) : list gql_request :=
  match evs with
  | [] => []
  | RemoteCall q :: rest => q :: remote_calls rest
  | _ :: rest => remote_calls rest
  end.

Fixpoint store_queries (evs : list event) : list value :=
  match evs with
  | [] => []
  | StoreQuery p :: rest => p :: store_queries rest
  | _ :: rest => store_queries rest
  end.

(** ** The end-to-end example of the specification *)

Module Example.

Definition customer : value :=
  VObj [("id", VNum 42); ("firstName", VStr "Ana");
        ("image", VObj [("src", VStr "https://x/a.png")])].

Definition product : value :=
  VObj [("id", VNum 99); ("title", VStr "Mug");
        ("description", VStr "Ceramic");
        ("onlineStoreUrl", VStr "https://shop/mug")].

Definition remote (q : gql_request) : call_outcome :=
  match q with
  | CustomerById id =>
      Resolves (VObj [("data",
        VObj [("customer", if String.eqb id "42" then customer else VNull)])])
  | ProductById id =>
      Resolves (VObj [("data",
        VObj [("product", if String.eqb id "99" then product else VNull)])])
  | ProductImageList id =>
      Resolves (VObj [("data",
        VObj [("product",
          if String.eqb id "99"
          then VObj [("media", VObj [("nodes", VArr [] [])])]
          else VNull)])])
  end.

Definition store (param : value) : db_outcome :=
  if String.eqb (to_string param) "42"
  then DbRows [VObj [("favorite_product_id", VNum 99)]]
  else DbRows [].

Definition world : world := World remote store.

Definition request : list (string * value) := [("user_id", VStr "42")].

(** The body that the specification expects for the example. *)
Definition expected_body : value :=
  VObj [("firstName", VStr "Ana");
        ("profileImage", VStr "https://x/a.png");
        ("product",
         VObj [("id", VNum 99); ("title", VStr "Mug");
               ("description", VStr "Ceramic");
               ("onlineStoreUrl", VStr "https://shop/mug");
               ("image", VNull)])].

End Example.

(** ** Worlds to run the handler in *)

Module Worlds.

(** The remote API of the example, with a local store that has no row. *)
Definition no_favorite : world :=
  World Example.remote (fun _ => DbRows []).

(** ... with a local store whose query fails. *)
Definition store_down : world :=
  World Example.remote (fun _ => DbError (Error "ECONNRESET")).

(** ... with a row whose [favorite_product_id] is [NULL]. *)
Definition null_favorite : world :=
  World Example.remote
        (fun _ => DbRows [VObj [("favorite_product_id", VNull)]]).

(** A remote API whose customer query is rejected. *)
Definition customer_api_down : world :=
  World (fun q =>
           match q with
           | CustomerById _ => Rejects (Error "socket hang up")
           | _ => Example.remote q
           end)
        Example.store.

(** A client whose product query throws before it returns a promise. *)
Definition product_api_throws : world :=
  World (fun q =>
           match q with
           | ProductById _ => Throws (Error "client closed")
           | _ => Example.remote q
           end)
        Example.store.

(** A product fetch that hands the handler a product. *)
Definition product_in_hand (_ : world) (_ : value) : js value :=
  ret Example.product.

End Worlds.

(** ** Auxiliary notions *)

(** A computation without events: reading and writing properties, and the
    plain control flow around them. *)
Definition silent {A} (m : js A) : Prop := now m = [] /\ later m = [].

(** How the promise of a call that has returned settles. *)
Definition promise (o : call_outcome) : exn + value :=
  match o with
  | Resolves response => inr response
  | Rejects e | Throws e => inl e
  end.

(** The chain that [fetchProductData] leaves behind. *)
Definition merged (o1 o2 : call_outcome) : js value :=
  responses <- promise_all2 (promise o1) (promise o2);;
  merge_responses responses.

(** ** The runs of the endpoint

    The shapes a run of [GET /users] can have, stage by stage; [userId]
    is [req.query['user_id']]. *)

Inductive run_shape (userId : value) : list event -> Prop :=
| run_missing_parameter :
    run_shape userId
      [Respond 400 (error_body "Missing user_id query parameter")]
| run_customer_fetch_failed (cause : exn) :
    run_shape userId
      [RemoteCall (CustomerById (to_string userId));
       ConsoleError "Error fetching customer data:" cause;
       UnhandledRejection (Error "Failed to fetch customer data")]
| run_customer_not_found :
    run_shape userId
      [RemoteCall (CustomerById (to_string userId));
       Respond 404 (error_body "Customer not found")]
| run_store_error :
    run_shape userId
      [RemoteCall (CustomerById (to_string userId)); StoreQuery userId;
       Respond 500 (error_body "Database query error")]
| run_favorite_not_found :
    run_shape userId
      [RemoteCall (CustomerById (to_string userId)); StoreQuery userId;
       Respond 404 (error_body "Favorite product not found")]
| run_first_product_query_throws (id : string) (cause : exn) :
    run_shape userId
      [RemoteCall (CustomerById (to_string userId)); StoreQuery userId;
       RemoteCall (ProductById id);
       ConsoleError "Error fetching product data:" cause;
       ConsoleError "Error fetching product data:"
                    (Error "Failed to fetch product data")]
| run_second_product_query_throws (id : string) (cause : exn)
                                  (first : exn + value) :
    run_shape userId
      ([RemoteCall (CustomerById (to_string userId)); StoreQuery userId;
        RemoteCall (ProductById id); RemoteCall (ProductImageList id);
        ConsoleError "Error fetching product data:" cause;
        ConsoleError "Error fetching product data:"
                     (Error "Failed to fetch product data")]
       ++ unhandled first)
| run_product_not_found (id : string) (merge : exn + value) :
    run_shape userId
      ([RemoteCall (CustomerById (to_string userId)); StoreQuery userId;
        RemoteCall (ProductById id); RemoteCall (ProductImageList id);
        Respond 404 (error_body "Product not found")]
       ++ unhandled merge).

(** More worlds. *)

Module Faults.

(** A customer query answered with GraphQL errors and no [data]. *)
Definition customer_errors : world :=
  World (fun q =>
           match q with
           | CustomerById _ =>
               Resolves (VObj [("errors",
                                VArr [VObj [("message", VStr "Invalid id")]]
                                     [])])
           | _ => Example.remote q
           end)
        Example.store.

(** A product query whose promise is rejected. *)
Definition product_api_down : world :=
  World (fun q =>
           match q with
           | ProductById _ => Rejects (Error "socket hang up")
           | _ => Example.remote q
           end)
        Example.store.


(** A media query that throws before it returns a promise. *)
Definition media_api_throws : world :=
  World (fun q =>
           match q with
           | ProductImageList _ => Throws (Error "client closed")
           | _ => Example.remote q
           end)
        Example.store.

(** A product query whose promise is rejected, and a media query that
    throws before it returns one. *)
Definition product_down_media_throws : world :=
  World (fun q =>
           match q with
           | ProductById _ => Rejects (Error "socket hang up")
           | ProductImageList _ => Throws (Error "client closed")
           | _ => Example.remote q
           end)
        Example.store.

(** A store whose first row lacks the column, before a row that has it. *)
Definition row_without_column : world :=
  World Example.remote
        (fun _ => DbRows [VObj [("shopify_customer_id", VStr "42")];
                          VObj [("favorite_product_id", VNum 99)]]).

(** The first image node of a product, as the media query returns it. *)
Definition image_node : value :=
  VObj [("id", VStr "gid://shopify/MediaImage/7");
        ("alt", VStr "A mug");
        ("image", VObj [("width", VNum 640); ("height", VNum 480);
                        ("url", VStr "https://cdn/mug.png")])].

Definition product_response : value :=
  VObj [("data", VObj [("product", Example.product)])].

Definition media_response (nodes : list value) : value :=
  VObj [("data",
         VObj [("product",
                VObj [("media", VObj [("nodes", VArr nodes [])])])])].

(** What the handler's callback is to put in [product.image] for
    [image_node]. *)
Definition image_fields : value :=
  VObj [("id", VStr "gid://shopify/MediaImage/7");
        ("alt", VStr "A mug");
        ("url", VStr "https://cdn/mug.png");
        ("width", VNum 640); ("height", VNum 480)].

End Faults.

(** ** Reasoning about runs *)

Section Runs.

Context {A B : Type}.

Lemma in_trace_bind (m : js A) (f : A -> js B) (ev : event) :
  In ev (trace (bind m f)) ->
  In ev (trace m) \/ exists a, settled m = inr a /\ In ev (trace (f a)).
Proof.
  unfold trace, bind. destruct (settled m) as [e | a]; simpl; auto.
  rewrite !in_app_iff. intros [[H | H] | [H | H]]; auto; right; exists a;
    rewrite in_app_iff; auto.
Qed.

Lemma in_trace_try_catch (m : js A) (h : exn -> js A) (ev : event) :
  In ev (trace (try_catch m h)) ->
  In ev (trace m) \/ exists e, settled m = inl e /\ In ev (trace (h e)).
Proof.
  unfold trace, try_catch. destruct (settled m) as [e | a]; simpl; auto.
  rewrite !in_app_iff. intros [[H | H] | [H | H]]; auto; right; exists e;
    rewrite in_app_iff; auto.
Qed.

Lemma in_trace_detach (m : js A) (ev : event) :
  In ev (trace (detach m)) ->
  In ev (trace m) \/ exists e, settled m = inl e /\ ev = UnhandledRejection e.
Proof.
  unfold trace, detach. simpl. rewrite !in_app_iff.
  intros [H | [H | H]]; auto.
  unfold unhandled in H.
  destruct (settled m) as [e | a]; simpl in H; [| tauto].
  destruct H as [H | []]. right. exists e. auto.
Qed.

End Runs.

Lemma silent_ret {A} (a : A) : silent (ret a).
Proof. split; reflexivity. Qed.

Lemma silent_throw {A} (e : exn) : silent (@throw A e).
Proof. split; reflexivity. Qed.

Lemma silent_bind {A B} (m : js A) (f : A -> js B) :
  silent m -> (forall a, silent (f a)) -> silent (bind m f).
Proof.
  intros [Hn Hl] Hf. unfold silent, bind.
  destruct (settled m) as [e | a]; simpl; [auto |].
  destruct (Hf a) as [Hn' Hl']. rewrite Hn, Hl, Hn', Hl'. auto.
Qed.

Lemma silent_get_prop (v : value) (k : string) : silent (get_prop v k).
Proof. destruct v; split; reflexivity. Qed.

Lemma silent_get_first (v : value) : silent (get_first v).
Proof. destruct v as [| | | | [|] | |]; split; reflexivity. Qed.

Lemma silent_set_prop (v : value) (k : string) (x : value) :
  silent (set_prop v k x).
Proof. destruct v; split; reflexivity. Qed.

Lemma silent_promise_all2 {A} (p q : exn + A) : silent (promise_all2 p q).
Proof. destruct p, q; split; reflexivity. Qed.

Lemma silent_await {A} (p : exn + A) : silent (await p).
Proof. split; reflexivity. Qed.

Create HintDb silent.
#[local] Hint Resolve silent_ret silent_throw silent_get_prop silent_get_first
  silent_set_prop silent_promise_all2 silent_await : silent.

Ltac silence :=
  repeat first
    [ progress auto with silent
    | apply silent_bind; [| intros ? ]
    | match goal with
      | |- silent (if ?c then _ else _) => destruct c
      end ].

Lemma silent_response_product (response : value) :
  silent (response_product response).
Proof. unfold response_product. silence. Qed.

Lemma silent_response_first_image (response : value) :
  silent (response_first_image response).
Proof. unfold response_first_image. silence. Qed.

#[local] Hint Resolve silent_response_product silent_response_first_image
  : silent.

Lemma silent_merge_responses (responses : value * value) :
  silent (merge_responses responses).
Proof. unfold merge_responses. silence. Qed.

Lemma silent_trace {A} (m : js A) : silent m -> trace m = [].
Proof. intros [Hn Hl]. unfold trace. rewrite Hn, Hl. reflexivity. Qed.

(** Reading a property of a value that is not [undefined] or [null]
    does not throw. *)
Lemma get_prop_truthy (v : value) (k : string) :
  truthy v = true -> exists x, get_prop v k = ret x.
Proof. destruct v; simpl; try discriminate; intros _; eexists; reflexivity. Qed.

(** ** What the two fetches do *)

Ltac crunch :=
  repeat (simpl in *;
          match goal with
          | H : context [match ?x with _ => _ end] |- _ => destruct x eqn:?
          | |- context [match ?x with _ => _ end] => destruct x eqn:?
          end);
  simpl in *; try congruence.

(** Drops the events of property reads from the goal. *)
Ltac quiet :=
  repeat match goal with
         | |- context [now (get_prop ?a ?k)] =>
             let Hn := fresh in
             let Hl := fresh in
             destruct (silent_get_prop a k) as [Hn Hl];
             rewrite ?Hn, ?Hl; clear Hn Hl
         end.

(** A fulfilled customer fetch has made its one call and logged nothing. *)
Lemma fetchCustomerData_fulfilled (w : world) (id c : value) :
  settled (fetchCustomerData w id) = inr c ->
  fetchCustomerData w id =
  Js [RemoteCall (CustomerById (to_string id))] [] (inr c).
Proof.
  unfold fetchCustomerData, try_catch, bind, query, await, console_error.
  intros H. crunch. quiet. rewrite H. reflexivity.
Qed.

(** When the client's promise rejects, the fetch logs the error and
    rejects with its own. *)
Lemma fetchCustomerData_rejected (w : world) (id : value) (e : exn) :
  client_query w (CustomerById (to_string id)) = Rejects e ->
  fetchCustomerData w id =
  Js [RemoteCall (CustomerById (to_string id));
      ConsoleError "Error fetching customer data:" e] []
     (inl (Error "Failed to fetch customer data")).
Proof.
  intros H.
  unfold fetchCustomerData, try_catch, bind, query, await, console_error.
  rewrite H. reflexivity.
Qed.

Lemma silent_merged (o1 o2 : call_outcome) : silent (merged o1 o2).
Proof.
  unfold merged. apply silent_bind; [apply silent_promise_all2 |].
  intros responses. apply silent_merge_responses.
Qed.

(** All the runs of [fetchProductData]: a call that throws is logged and
    turned into a rejection; otherwise both calls are made and the promise
    is fulfilled with [undefined], whatever the two calls come to. *)
Lemma fetchProductData_run (w : world) (productId : value) :
  fetchProductData w productId =
  let id := to_string productId in
  let o1 := client_query w (ProductById id) in
  let o2 := client_query w (ProductImageList id) in
  match o1, o2 with
  | Throws e, _ =>
      Js [RemoteCall (ProductById id);
          ConsoleError "Error fetching product data:" e] []
         (inl (Error "Failed to fetch product data"))
  | _, Throws e =>
      Js [RemoteCall (ProductById id); RemoteCall (ProductImageList id);
          ConsoleError "Error fetching product data:" e]
         (unhandled (promise o1))
         (inl (Error "Failed to fetch product data"))
  | _, _ =>
      Js [RemoteCall (ProductById id); RemoteCall (ProductImageList id)]
         (unhandled (settled (merged o1 o2)))
         (inr VUndefined)
  end.
Proof.
  unfold fetchProductData, query. cbv zeta.
  destruct (client_query w (ProductById (to_string productId))) as [e1|r1|e1];
    try reflexivity;
    destruct (client_query w (ProductImageList (to_string productId)))
      as [e2|r2|e2]; try reflexivity.
  all: match goal with
       | |- _ = Js _ (unhandled (settled (merged ?a ?b))) _ =>
           destruct (silent_merged a b) as [Hn Hl]
       end.
  all: unfold merged in *.
  all: unfold try_catch, holding, bind, detach, promise, promise_all2 in *;
    simpl in *; rewrite ?Hn, ?Hl; simpl; rewrite ?app_nil_r; reflexivity.
Qed.

(** The product chain of the handler, on the module's [fetchProductData]:
    where both calls return, the [then] callback is handed [undefined]. *)
Lemma product_chain_run (w : world) (firstName profileImage productId : value) :
  product_chain fetchProductData w firstName profileImage productId =
  let id := to_string productId in
  let o1 := client_query w (ProductById id) in
  let o2 := client_query w (ProductImageList id) in
  let rethrown :=
    ConsoleError "Error fetching product data:"
                 (Error "Failed to fetch product data") in
  match o1, o2 with
  | Throws e, _ =>
      Js [RemoteCall (ProductById id);
          ConsoleError "Error fetching product data:" e; rethrown] [] (inr tt)
  | _, Throws e =>
      Js [RemoteCall (ProductById id); RemoteCall (ProductImageList id);
          ConsoleError "Error fetching product data:" e; rethrown]
         (unhandled (promise o1)) (inr tt)
  | _, _ =>
      Js [RemoteCall (ProductById id); RemoteCall (ProductImageList id);
          Respond 404 (error_body "Product not found")]
         (unhandled (settled (merged o1 o2)))
         (inr tt)
  end.
Proof.
  unfold product_chain. rewrite fetchProductData_run. cbv zeta.
  destruct (client_query w (ProductById (to_string productId)));
    destruct (client_query w (ProductImageList (to_string productId)));
    unfold try_catch, bind; simpl; rewrite ?app_nil_r; reflexivity.
Qed.

Section HandlerFacts.

Variable fetchProduct : world -> value -> js value.
Variable w : world.

Lemma get_prop_opt_total (v : value) (k : string) :
  exists x, get_prop_opt v k = ret x.
Proof. unfold get_prop_opt. destruct v; simpl; eexists; reflexivity. Qed.

(** The [db.query] callback returns; it does not throw. *)
Lemma on_results_settled (firstName profileImage : value) (r : db_outcome) :
  settled (on_results fetchProduct w firstName profileImage r) = inr tt.
Proof.
  destruct r as [err | results]; simpl; [reflexivity |].
  destruct (List.length results =? 0)%nat; [reflexivity |].
  destruct (get_prop_opt_total (hd VUndefined results) "favorite_product_id")
    as [x ->].
  reflexivity.
Qed.

(** A request without a usable [user_id] is answered at once. *)
Lemma handler_missing (q : list (string * value)) :
  truthy (lookup "user_id" q) = false ->
  users_handler_with fetchProduct w q =
  respond 400 (error_body "Missing user_id query parameter").
Proof. intros H. unfold users_handler_with. rewrite H. reflexivity. Qed.

(** The run of a request whose customer fetch is rejected. *)
Lemma handler_customer_rejected (q : list (string * value)) (e : exn) :
  let userId := lookup "user_id" q in
  truthy userId = true ->
  client_query w (CustomerById (to_string userId)) = Rejects e ->
  trace (users_handler_with fetchProduct w q) =
  [RemoteCall (CustomerById (to_string userId));
   ConsoleError "Error fetching customer data:" e;
   UnhandledRejection (Error "Failed to fetch customer data")].
Proof.
  intros userId Hu He. unfold users_handler_with. fold userId. rewrite Hu.
  simpl. rewrite (fetchCustomerData_rejected _ _ He). reflexivity.
Qed.

(** The run of a request whose customer fetch is fulfilled with a value
    that is not a customer. *)
Lemma handler_no_customer (q : list (string * value)) (c : value) :
  let userId := lookup "user_id" q in
  truthy userId = true ->
  settled (fetchCustomerData w userId) = inr c ->
  truthy c = false ->
  trace (users_handler_with fetchProduct w q) =
  [RemoteCall (CustomerById (to_string userId));
   Respond 404 (error_body "Customer not found")].
Proof.
  intros userId Hu Hc Hf. unfold users_handler_with. fold userId. rewrite Hu.
  simpl. rewrite (fetchCustomerData_fulfilled _ _ Hc).
  unfold bind, on_customer. simpl. rewrite Hf. reflexivity.
Qed.

(** The run of a request whose customer is found: the store is asked, and
    the rest is up to the [db.query] callback. *)
Lemma handler_customer (q : list (string * value)) (c : value) :
  let userId := lookup "user_id" q in
  truthy userId = true ->
  settled (fetchCustomerData w userId) = inr c ->
  truthy c = true ->
  exists firstName profileImage,
    get_prop c "firstName" = ret firstName /\
    get_prop c "image" = ret profileImage /\
    trace (users_handler_with fetchProduct w q) =
    RemoteCall (CustomerById (to_string userId)) :: StoreQuery userId ::
    trace (on_results fetchProduct w firstName profileImage
                      (db_query w userId)).
Proof.
  intros userId Hu Hc Ht.
  destruct (get_prop_truthy c "firstName" Ht) as [firstName Hfn].
  destruct (get_prop_truthy c "image" Ht) as [profileImage Hpi].
  exists firstName, profileImage. split; [assumption |]. split; [assumption |].
  unfold users_handler_with. fold userId. rewrite Hu. simpl.
  rewrite (fetchCustomerData_fulfilled _ _ Hc).
  pose proof (on_results_settled firstName profileImage (db_query w userId))
    as Hs.
  unfold trace, detach, bind at 1. simpl. unfold on_customer.
  rewrite Ht, Hfn, Hpi. unfold bind. simpl. rewrite Hs. simpl.
  rewrite app_nil_r. reflexivity.
Qed.

End HandlerFacts.

(** Closes a goal from a hypothesis that puts an event in a list written
    out in full in which it does not occur. *)
Ltac absent H :=
  unfold error_body in H; simpl in H;
  repeat match type of H with
         | _ \/ _ => destruct H as [H | H]
         end;
  solve [ discriminate H | contradiction | inversion H ].

(** The customer fetch has no hand on the response. *)
Lemma fetchCustomerData_no_response (w : world) (id : value) (st : Z)
      (b : value) :
  ~ In (Respond st b) (trace (fetchCustomerData w id)).
Proof.
  intros H. unfold fetchCustomerData in H.
  apply in_trace_try_catch in H as [H | (e & _ & H)]; [| absent H].
  apply in_trace_bind in H as [H | (p & _ & H)].
  - unfold query in H. apply in_trace_bind in H as [H | (u & _ & H)].
    + absent H.
    + destruct (client_query w (CustomerById (to_string id))); absent H.
  - rewrite silent_trace in H; [contradiction |]. silence.
Qed.

(** Neither has [fetchProductData]. *)
Lemma fetchProductData_no_response (w : world) (productId : value) (st : Z)
      (b : value) :
  ~ In (Respond st b) (trace (fetchProductData w productId)).
Proof.
  rewrite fetchProductData_run. cbv zeta. intros H.
  destruct (client_query w (ProductById (to_string productId))) as [e1|r1|e1];
    destruct (client_query w (ProductImageList (to_string productId)))
      as [e2|r2|e2];
    try absent H.
  all: unfold trace, unhandled in H; simpl in H;
    match type of H with
    | context [settled ?m] => destruct (settled m)
    end; absent H.
Qed.

Section Composition.

Variable fetchProduct : world -> value -> js value.
Variable w : world.

(** With a product in hand the [then] callback answers 200; every property
    it reads is read from a value that is neither [undefined] nor [null]. *)
Lemma on_product_found (firstName profileImage productData : value) :
  truthy productData = true ->
  exists body,
    on_product firstName profileImage productData = respond 200 body.
Proof.
  intros Ht. unfold on_product. rewrite Ht. simpl.
  destruct (get_prop_truthy productData "id" Ht) as [id ->].
  destruct (get_prop_truthy productData "title" Ht) as [title ->].
  destruct (get_prop_truthy productData "description" Ht) as [descr ->].
  destruct (get_prop_truthy productData "onlineStoreUrl" Ht) as [url ->].
  destruct (get_prop_truthy productData "image" Ht) as [image ->].
  unfold bind at 1 2 3 4 5. simpl.
  destruct (truthy image) eqn:Hi.
  - destruct (get_prop_truthy image "id" Hi) as [x1 ->].
    destruct (get_prop_truthy image "alt" Hi) as [x2 ->].
    destruct (get_prop_truthy image "url" Hi) as [x3 ->].
    destruct (get_prop_truthy image "width" Hi) as [x4 ->].
    destruct (get_prop_truthy image "height" Hi) as [x5 ->].
    eexists. reflexivity.
  - eexists. reflexivity.
Qed.

Lemma on_product_missing (firstName profileImage productData : value) :
  truthy productData = false ->
  on_product firstName profileImage productData =
  respond 404 (error_body "Product not found").
Proof. intros Hf. unfold on_product. rewrite Hf. reflexivity. Qed.

(** The product chain ends in a [catch] whose callback returns. *)
Lemma product_chain_settled (firstName profileImage productId : value) :
  settled (product_chain fetchProduct w firstName profileImage productId) =
  inr tt.
Proof.
  unfold product_chain, try_catch at 2.
  destruct (settled (productData <- fetchProduct w productId;;
                     on_product firstName profileImage productData))
    as [e | []] eqn:Hs.
  - reflexivity.
  - unfold try_catch. rewrite Hs. assumption.
Qed.

(** The three answers of the [db.query] callback. *)
Lemma on_results_error (firstName profileImage : value) (err : exn) :
  trace (on_results fetchProduct w firstName profileImage (DbError err)) =
  [Respond 500 (error_body "Database query error")].
Proof. reflexivity. Qed.

Lemma on_results_empty (firstName profileImage : value) :
  trace (on_results fetchProduct w firstName profileImage (DbRows [])) =
  [Respond 404 (error_body "Favorite product not found")].
Proof. reflexivity. Qed.

Lemma on_results_row (firstName profileImage row : value)
      (rows : list value) :
  exists favoriteProductId,
    get_prop_opt row "favorite_product_id" = ret favoriteProductId /\
    trace (on_results fetchProduct w firstName profileImage
                      (DbRows (row :: rows))) =
    trace (product_chain fetchProduct w firstName profileImage
                         favoriteProductId).
Proof.
  destruct (get_prop_opt_total row "favorite_product_id") as [pid Hpid].
  exists pid. split; [assumption |].
  unfold on_results. simpl. rewrite Hpid.
  unfold trace, bind, detach. simpl.
  rewrite product_chain_settled. simpl. rewrite app_nil_r. reflexivity.
Qed.

End Composition.

(** A request whose customer fetch is rejected gets no response: the
    [then] of line 75 has no rejection handler. *)
Lemma handler_customer_failed (fetchProduct : world -> value -> js value)
      (w : world) (q : list (string * value)) (e : exn) :
  truthy (lookup "user_id" q) = true ->
  settled (fetchCustomerData w (lookup "user_id" q)) = inl e ->
  forall st b, ~ In (Respond st b) (trace (users_handler_with fetchProduct w q)).
Proof.
  intros Hu He st b H. unfold users_handler_with in H. rewrite Hu in H.
  simpl in H.
  apply in_trace_detach in H as [H | (e' & _ & H)]; [| discriminate H].
  apply in_trace_bind in H as [H | (c & Hc & _)].
  - exact (fetchCustomerData_no_response _ _ _ _ H).
  - congruence.
Qed.

(** ** The endpoint's answers *)

(** C6: a request whose [user_id] query parameter is missing or is the
    empty string is answered 400 with an error body, and neither the
    remote API nor the local store is called. *)
Theorem missing_user_id_answers_400 (w : world) (q : list (string * value)) :
  lookup "user_id" q = VUndefined \/ lookup "user_id" q = VStr "" ->
  trace (users_handler w q) =
    [Respond 400 (error_body "Missing user_id query parameter")] /\
  remote_calls (trace (users_handler w q)) = [] /\
  store_queries (trace (users_handler w q)) = [].
Proof.
  intros H. unfold users_handler. rewrite handler_missing.
  - repeat split.
  - destruct H as [-> | ->]; reflexivity.
Qed.

Lemma missing_user_id_answers_400_witness :
  (trace (users_handler Example.world []) =
     [Respond 400 (error_body "Missing user_id query parameter")] /\
   remote_calls (trace (users_handler Example.world [])) = [] /\
   store_queries (trace (users_handler Example.world [])) = []) /\
  (trace (users_handler Example.world [("user_id", VStr "")]) =
     [Respond 400 (error_body "Missing user_id query parameter")] /\
   remote_calls (trace (users_handler Example.world [("user_id", VStr "")]))
     = [] /\
   store_queries (trace (users_handler Example.world [("user_id", VStr "")]))
     = []).
Proof.
  split.
  - exact (missing_user_id_answers_400 Example.world []
             (or_introl eq_refl)).
  - exact (missing_user_id_answers_400 Example.world [("user_id", VStr "")]
             (or_intror eq_refl)).
Defined.

(** C7: when the customer lookup succeeds and brings back no customer, the
    request is answered 404 "Customer not found", and the local store is
    not queried. *)
Theorem unknown_customer_answers_404 (w : world) (q : list (string * value))
        (c : value) :
  truthy (lookup "user_id" q) = true ->
  settled (fetchCustomerData w (lookup "user_id" q)) = inr c ->
  truthy c = false ->
  trace (users_handler w q) =
    [RemoteCall (CustomerById (to_string (lookup "user_id" q)));
     Respond 404 (error_body "Customer not found")] /\
  store_queries (trace (users_handler w q)) = [].
Proof.
  intros Hu Hc Hf. unfold users_handler.
  rewrite (handler_no_customer fetchProductData w q Hu Hc Hf).
  split; reflexivity.
Qed.

Lemma unknown_customer_answers_404_witness :
  trace (users_handler Example.world [("user_id", VStr "7")]) =
    [RemoteCall (CustomerById "7");
     Respond 404 (error_body "Customer not found")] /\
  store_queries (trace (users_handler Example.world [("user_id", VStr "7")]))
    = [].
Proof.
  exact (@unknown_customer_answers_404
           Example.world [("user_id", VStr "7")] VNull
           eq_refl eq_refl eq_refl).
Defined.

(** C8: for a customer that is found, a store query that comes back with
    zero rows is answered 404 and no product query is sent; a store query
    that fails is answered 500. *)
Theorem no_favorite_404_store_fault_500 (w : world)
        (q : list (string * value)) (c : value) :
  truthy (lookup "user_id" q) = true ->
  settled (fetchCustomerData w (lookup "user_id" q)) = inr c ->
  truthy c = true ->
  (db_query w (lookup "user_id" q) = DbRows [] ->
   trace (users_handler w q) =
     [RemoteCall (CustomerById (to_string (lookup "user_id" q)));
      StoreQuery (lookup "user_id" q);
      Respond 404 (error_body "Favorite product not found")]) /\
  (forall err, db_query w (lookup "user_id" q) = DbError err ->
   trace (users_handler w q) =
     [RemoteCall (CustomerById (to_string (lookup "user_id" q)));
      StoreQuery (lookup "user_id" q);
      Respond 500 (error_body "Database query error")]).
Proof.
  intros Hu Hc Ht. unfold users_handler.
  destruct (handler_customer fetchProductData w q Hu Hc Ht)
    as (firstName & profileImage & _ & _ & ->).
  split.
  - intros ->. reflexivity.
  - intros err ->. reflexivity.
Qed.

Lemma no_favorite_404_store_fault_500_witness :
  trace (users_handler Worlds.no_favorite Example.request) =
    [RemoteCall (CustomerById "42"); StoreQuery (VStr "42");
     Respond 404 (error_body "Favorite product not found")] /\
  trace (users_handler Worlds.store_down Example.request) =
    [RemoteCall (CustomerById "42"); StoreQuery (VStr "42");
     Respond 500 (error_body "Database query error")].
Proof.
  split.
  - exact (proj1 (@no_favorite_404_store_fault_500
                    Worlds.no_favorite Example.request Example.customer
                    eq_refl eq_refl eq_refl) eq_refl).
  - exact (proj2 (@no_favorite_404_store_fault_500
                    Worlds.store_down Example.request Example.customer
                    eq_refl eq_refl eq_refl) (Error "ECONNRESET") eq_refl).
Defined.

(** C5: when the customer query is rejected, [fetchCustomerData] logs the
    error and rejects with "Failed to fetch customer data", but the
    handler sends nothing: the [catch] that answers 500 with that message
    (lines 136-139) hangs on the product chain, the customer chain has
    none, and the rejection goes unhandled. *)
Theorem customer_fetch_rejection_unanswered (w : world)
        (q : list (string * value)) (e : exn) :
  truthy (lookup "user_id" q) = true ->
  client_query w (CustomerById (to_string (lookup "user_id" q))) = Rejects e ->
  settled (fetchCustomerData w (lookup "user_id" q)) =
    inl (Error "Failed to fetch customer data") /\
  trace (users_handler w q) =
    [RemoteCall (CustomerById (to_string (lookup "user_id" q)));
     ConsoleError "Error fetching customer data:" e;
     UnhandledRejection (Error "Failed to fetch customer data")] /\
  responses (trace (users_handler w q)) = [].
Proof.
  intros Hu He. split.
  - rewrite (fetchCustomerData_rejected _ _ He). reflexivity.
  - unfold users_handler.
    rewrite (handler_customer_rejected fetchProductData w q Hu He).
    split; reflexivity.
Qed.

Lemma customer_fetch_rejection_unanswered_witness :
  settled (fetchCustomerData Worlds.customer_api_down (VStr "42")) =
    inl (Error "Failed to fetch customer data") /\
  trace (users_handler Worlds.customer_api_down Example.request) =
    [RemoteCall (CustomerById "42");
     ConsoleError "Error fetching customer data:" (Error "socket hang up");
     UnhandledRejection (Error "Failed to fetch customer data")] /\
  responses (trace (users_handler Worlds.customer_api_down Example.request))
    = [].
Proof.
  exact (@customer_fetch_rejection_unanswered
           Worlds.customer_api_down Example.request (Error "socket hang up")
           eq_refl eq_refl).
Defined.

(** C4: a failure path that ends with a log and no response.  With the
    customer API down, the run of the example request is the call, the
    [console.error] of [fetchCustomerData] and an unhandled rejection; no
    response is sent. *)
Theorem customer_api_down_no_response :
  trace (users_handler Worlds.customer_api_down Example.request) =
    [RemoteCall (CustomerById "42");
     ConsoleError "Error fetching customer data:" (Error "socket hang up");
     UnhandledRejection (Error "Failed to fetch customer data")] /\
  List.length
    (responses (trace (users_handler Worlds.customer_api_down
                                     Example.request))) = 0%nat.
Proof. split; reflexivity. Qed.

(** A second such path: a client whose product query throws is logged
    twice, by [fetchProductData] and by the first [catch] of the chain,
    whose callback returns; the second [catch] is not reached. *)
Remark product_query_throw_is_only_logged :
  trace (users_handler Worlds.product_api_throws Example.request) =
    [RemoteCall (CustomerById "42"); StoreQuery (VStr "42");
     RemoteCall (ProductById "99");
     ConsoleError "Error fetching product data:" (Error "client closed");
     ConsoleError "Error fetching product data:"
                  (Error "Failed to fetch product data")].
Proof. reflexivity. Qed.

(** C1: on the end-to-end example the handler makes the four calls of the
    specification and then answers 404 "Product not found": the product
    fetch has handed it [undefined].  The expected 200 body is not sent. *)
Theorem example_request_answers_404 :
  settled (fetchProductData Example.world (VNum 99)) = inr VUndefined /\
  trace (users_handler Example.world Example.request) =
    [RemoteCall (CustomerById "42"); StoreQuery (VStr "42");
     RemoteCall (ProductById "99"); RemoteCall (ProductImageList "99");
     Respond 404 (error_body "Product not found")] /\
  responses (trace (users_handler Example.world Example.request)) <>
    [(200, Example.expected_body)].
Proof. repeat split. discriminate. Qed.

(** On the example, the merge callback does compute the product of the
    specification; it is its value that goes nowhere. *)
Remark example_merge_computes_product :
  settled
    (merged (Example.remote (ProductById "99"))
            (Example.remote (ProductImageList "99"))) =
  inr Example.product.
Proof. reflexivity. Qed.

(** Line 79 binds [profileImage] to [customerData.image], the object with
    the [src] field: handed the product of the example, the handler's
    [then] callback answers with that object, not with the URL in it. *)
Remark example_profile_image_is_an_object :
  responses
    (trace (users_handler_with Worlds.product_in_hand Example.world
                               Example.request)) =
  [(200,
    VObj [("firstName", VStr "Ana");
          ("profileImage", VObj [("src", VStr "https://x/a.png")]);
          ("product",
           VObj [("id", VNum 99); ("title", VStr "Mug");
                 ("description", VStr "Ceramic");
                 ("onlineStoreUrl", VStr "https://shop/mug");
                 ("image", VNull)])])].
Proof. reflexivity. Qed.

(** ** The product stage *)

Lemma settled_bind {A B} (m : js A) (f : A -> js B) (a : A) :
  settled m = inr a -> settled (bind m f) = settled (f a).
Proof. intros H. unfold bind. rewrite H. reflexivity. Qed.

Lemma responses_app (l1 l2 : list event) :
  responses (l1 ++ l2) = (responses l1 ++ responses l2)%list.
Proof.
  induction l1 as [| ev l1 IH]; simpl; [reflexivity |].
  destruct ev; simpl; rewrite IH; reflexivity.
Qed.

Lemma responses_unhandled {A} (r : exn + A) : responses (unhandled r) = [].
Proof. destruct r; reflexivity. Qed.

(** A request with a customer and a row in the store gets to the product
    chain, with the identifier read from the first row. *)
Lemma handler_reaches_product (fetchProduct : world -> value -> js value)
      (w : world) (q : list (string * value)) (c row : value)
      (rows : list value) :
  truthy (lookup "user_id" q) = true ->
  settled (fetchCustomerData w (lookup "user_id" q)) = inr c ->
  truthy c = true ->
  db_query w (lookup "user_id" q) = DbRows (row :: rows) ->
  exists firstName profileImage favoriteProductId,
    get_prop c "firstName" = ret firstName /\
    get_prop c "image" = ret profileImage /\
    get_prop_opt row "favorite_product_id" = ret favoriteProductId /\
    trace (users_handler_with fetchProduct w q) =
    RemoteCall (CustomerById (to_string (lookup "user_id" q))) ::
    StoreQuery (lookup "user_id" q) ::
    trace (product_chain fetchProduct w firstName profileImage
                         favoriteProductId).
Proof.
  intros Hu Hc Ht Hdb.
  destruct (handler_customer fetchProduct w q Hu Hc Ht)
    as (firstName & profileImage & Hfn & Hpi & ->).
  rewrite Hdb.
  destruct (on_results_row fetchProduct w firstName profileImage row rows)
    as (pid & Hpid & ->).
  exists firstName, profileImage, pid. auto.
Qed.

Lemma ret_inj {A} (a b : A) : ret a = ret b -> a = b.
Proof. unfold ret. congruence. Qed.

(** With both product queries resolved, the request is answered 404
    before the merge callback has run. *)
Lemma product_stage_run (w : world) (q : list (string * value))
      (c row favoriteProductId r1 r2 : value) (rows : list value) :
  truthy (lookup "user_id" q) = true ->
  settled (fetchCustomerData w (lookup "user_id" q)) = inr c ->
  truthy c = true ->
  db_query w (lookup "user_id" q) = DbRows (row :: rows) ->
  get_prop_opt row "favorite_product_id" = ret favoriteProductId ->
  client_query w (ProductById (to_string favoriteProductId)) = Resolves r1 ->
  client_query w (ProductImageList (to_string favoriteProductId)) =
    Resolves r2 ->
  trace (users_handler w q) =
  ([RemoteCall (CustomerById (to_string (lookup "user_id" q)));
    StoreQuery (lookup "user_id" q);
    RemoteCall (ProductById (to_string favoriteProductId));
    RemoteCall (ProductImageList (to_string favoriteProductId));
    Respond 404 (error_body "Product not found")]
   ++ unhandled (settled (merge_responses (r1, r2))))%list.
Proof.
  intros Hu Hc Ht Hdb Hrow H1 H2. unfold users_handler.
  destruct (handler_reaches_product fetchProductData w q Hu Hc Ht Hdb)
    as (firstName & profileImage & pid & _ & _ & Hpid & ->).
  rewrite Hrow in Hpid. apply ret_inj in Hpid. subst pid.
  rewrite product_chain_run. cbv zeta. rewrite H1, H2. reflexivity.
Qed.

(** C2: on every chain with a customer, a favorite row, a product and no
    image node, the merge callback comes to the product without an image,
    and the handler has by then answered 404 "Product not found": there is
    one response, and it is not a 200. *)
Theorem no_image_chain_answers_404 (w : world) (q : list (string * value))
        (c row favoriteProductId r1 r2 product image : value)
        (rows : list value) :
  truthy (lookup "user_id" q) = true ->
  settled (fetchCustomerData w (lookup "user_id" q)) = inr c ->
  truthy c = true ->
  db_query w (lookup "user_id" q) = DbRows (row :: rows) ->
  get_prop_opt row "favorite_product_id" = ret favoriteProductId ->
  client_query w (ProductById (to_string favoriteProductId)) = Resolves r1 ->
  client_query w (ProductImageList (to_string favoriteProductId)) =
    Resolves r2 ->
  settled (response_product r1) = inr product ->
  truthy product = true ->
  settled (response_first_image r2) = inr image ->
  truthy image = false ->
  settled (merge_responses (r1, r2)) = inr product /\
  settled (fetchProductData w favoriteProductId) = inr VUndefined /\
  responses (trace (users_handler w q)) =
    [(404, error_body "Product not found")].
Proof.
  intros Hu Hc Ht Hdb Hrow H1 H2 Hp Htp Hi Hti.
  assert (Hm : settled (merge_responses (r1, r2)) = inr product).
  { unfold merge_responses. simpl fst. simpl snd.
    rewrite (settled_bind _ _ Hp), Htp. simpl negb. cbv iota.
    rewrite (settled_bind _ _ Hi), Hti. reflexivity. }
  split; [assumption |]. split.
  - rewrite fetchProductData_run. cbv zeta. rewrite H1, H2. reflexivity.
  - rewrite (product_stage_run w q Hu Hc Ht Hdb Hrow H1 H2), Hm. reflexivity.
Qed.

Lemma no_image_chain_answers_404_witness :
  settled
    (merge_responses
       (VObj [("data", VObj [("product", Example.product)])],
        VObj [("data",
               VObj [("product",
                      VObj [("media", VObj [("nodes", VArr [] [])])])])])) =
    inr Example.product /\
  settled (fetchProductData Example.world (VNum 99)) = inr VUndefined /\
  responses (trace (users_handler Example.world Example.request)) =
    [(404, error_body "Product not found")].
Proof.
  exact (@no_image_chain_answers_404
           Example.world Example.request Example.customer
           (VObj [("favorite_product_id", VNum 99)]) (VNum 99)
           _ _ Example.product VUndefined []
           eq_refl eq_refl eq_refl eq_refl eq_refl eq_refl eq_refl
           eq_refl eq_refl eq_refl eq_refl).
Defined.

(** No run of the endpoint sends a 200. *)
Lemma no_success_response (w : world) (q : list (string * value))
      (body : value) :
  ~ In (Respond 200 body) (trace (users_handler w q)).
Proof.
  intros H. unfold users_handler in H.
  destruct (truthy (lookup "user_id" q)) eqn:Hu.
  2: { rewrite (handler_missing _ _ _ Hu) in H. absent H. }
  destruct (settled (fetchCustomerData w (lookup "user_id" q)))
    as [e | c] eqn:Hc.
  { revert H. apply handler_customer_failed with (e := e); assumption. }
  destruct (truthy c) eqn:Ht.
  2: { rewrite (handler_no_customer _ w q Hu Hc Ht) in H. absent H. }
  destruct (db_query w (lookup "user_id" q)) as [err | [| row rows]] eqn:Hdb.
  - destruct (handler_customer fetchProductData w q Hu Hc Ht)
      as (fn & pi & _ & _ & E).
    rewrite E, Hdb in H. absent H.
  - destruct (handler_customer fetchProductData w q Hu Hc Ht)
      as (fn & pi & _ & _ & E).
    rewrite E, Hdb in H. absent H.
  - destruct (handler_reaches_product fetchProductData w q Hu Hc Ht Hdb)
      as (fn & pi & pid & _ & _ & _ & E).
    rewrite E, product_chain_run in H. cbv zeta in H.
    destruct (client_query w (ProductById (to_string pid)));
      destruct (client_query w (ProductImageList (to_string pid)));
      try absent H.
    all: unfold trace, unhandled in H; simpl in H;
      match type of H with
      | context [settled ?m] => destruct (settled m)
      end; absent H.
Qed.

(** C3: whenever both product queries resolve, [fetchProductData] is
    fulfilled with [undefined]: the value of the merge callback is not
    returned.  So every request that gets to the product stage with both
    queries resolved is answered 404 "Product not found", and no request
    at all is answered 200. *)
Theorem fetchProductData_result_is_dropped :
  (forall (w : world) (productId r1 r2 : value),
      client_query w (ProductById (to_string productId)) = Resolves r1 ->
      client_query w (ProductImageList (to_string productId)) = Resolves r2 ->
      settled (fetchProductData w productId) = inr VUndefined) /\
  (forall (w : world) (q : list (string * value))
          (c row favoriteProductId r1 r2 : value) (rows : list value),
      truthy (lookup "user_id" q) = true ->
      settled (fetchCustomerData w (lookup "user_id" q)) = inr c ->
      truthy c = true ->
      db_query w (lookup "user_id" q) = DbRows (row :: rows) ->
      get_prop_opt row "favorite_product_id" = ret favoriteProductId ->
      client_query w (ProductById (to_string favoriteProductId)) =
        Resolves r1 ->
      client_query w (ProductImageList (to_string favoriteProductId)) =
        Resolves r2 ->
      responses (trace (users_handler w q)) =
        [(404, error_body "Product not found")]) /\
  (forall (w : world) (q : list (string * value)) (body : value),
      ~ In (Respond 200 body) (trace (users_handler w q))).
Proof.
  split; [| split].
  - intros w productId r1 r2 H1 H2.
    rewrite fetchProductData_run. cbv zeta. rewrite H1, H2. reflexivity.
  - intros w q c row pid r1 r2 rows Hu Hc Ht Hdb Hrow H1 H2.
    rewrite (product_stage_run w q Hu Hc Ht Hdb Hrow H1 H2).
    rewrite responses_app, responses_unhandled. reflexivity.
  - exact no_success_response.
Qed.

Lemma fetchProductData_result_is_dropped_witness :
  settled (fetchProductData Example.world (VNum 99)) = inr VUndefined /\
  responses (trace (users_handler Example.world Example.request)) =
    [(404, error_body "Product not found")] /\
  ~ In (Respond 200 Example.expected_body)
       (trace (users_handler Example.world Example.request)).
Proof.
  destruct fetchProductData_result_is_dropped as (Hfetch & Hstage & Hnever).
  split; [| split].
  - exact (Hfetch Example.world (VNum 99) _ _ eq_refl eq_refl).
  - exact (Hstage Example.world Example.request Example.customer
                  (VObj [("favorite_product_id", VNum 99)]) (VNum 99) _ _ []
                  eq_refl eq_refl eq_refl eq_refl eq_refl eq_refl eq_refl).
  - exact (Hnever Example.world Example.request Example.expected_body).
Defined.

(** C10: a row whose [favorite_product_id] is [NULL] is not answered 404
    "Favorite product not found" (the check of line 96 looks at the number
    of rows only): the product queries are sent, with the identifier that
    [null] interpolates to. *)
Theorem null_favorite_reaches_product_lookup (w : world)
        (q : list (string * value)) (c row : value) (rows : list value) :
  truthy (lookup "user_id" q) = true ->
  settled (fetchCustomerData w (lookup "user_id" q)) = inr c ->
  truthy c = true ->
  db_query w (lookup "user_id" q) = DbRows (row :: rows) ->
  get_prop_opt row "favorite_product_id" = ret VNull ->
  ~ In (Respond 404 (error_body "Favorite product not found"))
       (trace (users_handler w q)) /\
  In (RemoteCall (ProductById (to_string VNull))) (trace (users_handler w q)).
Proof.
  intros Hu Hc Ht Hdb Hrow. unfold users_handler.
  destruct (handler_reaches_product fetchProductData w q Hu Hc Ht Hdb)
    as (fn & pi & pid & _ & _ & Hpid & ->).
  rewrite Hrow in Hpid. apply ret_inj in Hpid. subst pid.
  rewrite product_chain_run. cbv zeta.
  destruct (client_query w (ProductById (to_string VNull)));
    destruct (client_query w (ProductImageList (to_string VNull)));
    (split; [intros H | simpl; auto]); try absent H.
  all: unfold trace, unhandled in H; simpl in H;
    match type of H with
    | context [settled ?m] => destruct (settled m)
    end; absent H.
Qed.

Lemma null_favorite_reaches_product_lookup_witness :
  ~ In (Respond 404 (error_body "Favorite product not found"))
       (trace (users_handler Worlds.null_favorite Example.request)) /\
  In (RemoteCall (ProductById "null"))
     (trace (users_handler Worlds.null_favorite Example.request)).
Proof.
  exact (@null_favorite_reaches_product_lookup
           Worlds.null_favorite Example.request Example.customer
           (VObj [("favorite_product_id", VNull)]) []
           eq_refl eq_refl eq_refl eq_refl eq_refl).
Defined.

(** ** The success body *)

(** Where the 200 of line 117 sits in the handler, for any product fetch
    that leaves the response alone: a run answers 200 only after the
    customer fetch was fulfilled with a truthy value and the product fetch
    with a truthy value, and the body is what the [then] callback of
    lines 112-133 makes of the two. *)
Theorem success_needs_customer_and_product
        (fetchProduct : world -> value -> js value) (w : world)
        (q : list (string * value)) (body : value) :
  (forall productId st b, ~ In (Respond st b) (trace (fetchProduct w productId))) ->
  In (Respond 200 body) (trace (users_handler_with fetchProduct w q)) ->
  exists customerData productData firstName profileImage favoriteProductId,
    settled (fetchCustomerData w (lookup "user_id" q)) = inr customerData /\
    truthy customerData = true /\
    settled (fetchProduct w favoriteProductId) = inr productData /\
    truthy productData = true /\
    get_prop customerData "firstName" = ret firstName /\
    get_prop customerData "image" = ret profileImage /\
    on_product firstName profileImage productData = respond 200 body.
Proof.
  intros Hquiet H.
  destruct (truthy (lookup "user_id" q)) eqn:Hu.
  2: { rewrite (handler_missing _ _ _ Hu) in H. absent H. }
  destruct (settled (fetchCustomerData w (lookup "user_id" q)))
    as [e | c] eqn:Hc.
  { exfalso. revert H.
    apply handler_customer_failed with (e := e); assumption. }
  destruct (truthy c) eqn:Ht.
  2: { rewrite (handler_no_customer _ w q Hu Hc Ht) in H. absent H. }
  destruct (db_query w (lookup "user_id" q)) as [err | [| row rows]] eqn:Hdb.
  - destruct (handler_customer fetchProduct w q Hu Hc Ht)
      as (fn & pi & _ & _ & E).
    rewrite E, Hdb in H. absent H.
  - destruct (handler_customer fetchProduct w q Hu Hc Ht)
      as (fn & pi & _ & _ & E).
    rewrite E, Hdb in H. absent H.
  - destruct (handler_reaches_product fetchProduct w q Hu Hc Ht Hdb)
      as (fn & pi & pid & Hfn & Hpi & _ & E).
    rewrite E in H. clear E.
    destruct H as [H | [H | H]]; try discriminate H.
    unfold product_chain in H.
    apply in_trace_try_catch in H as [H | (e & _ & H)]; [| absent H].
    apply in_trace_try_catch in H as [H | (e & _ & H)]; [| absent H].
    apply in_trace_bind in H as [H | (p & Hp & H)].
    { exfalso. exact (Hquiet _ _ _ H). }
    destruct (truthy p) eqn:Htp.
    2: { rewrite (on_product_missing fn pi p Htp) in H. absent H. }
    destruct (on_product_found fn pi p Htp) as (body' & Hbody).
    rewrite Hbody in H. destruct H as [H | []].
    injection H as <-.
    exists c, p, fn, pi, pid. repeat split; assumption.
Qed.

Lemma success_needs_customer_and_product_witness :
  exists customerData productData firstName profileImage favoriteProductId,
    settled (fetchCustomerData Example.world (VStr "42")) = inr customerData /\
    truthy customerData = true /\
    settled (Worlds.product_in_hand Example.world favoriteProductId) =
      inr productData /\
    truthy productData = true /\
    get_prop customerData "firstName" = ret firstName /\
    get_prop customerData "image" = ret profileImage /\
    on_product firstName profileImage productData =
    respond 200
      (VObj [("firstName", VStr "Ana");
             ("profileImage", VObj [("src", VStr "https://x/a.png")]);
             ("product",
              VObj [("id", VNum 99); ("title", VStr "Mug");
                    ("description", VStr "Ceramic");
                    ("onlineStoreUrl", VStr "https://shop/mug");
                    ("image", VNull)])]).
Proof.
  apply (@success_needs_customer_and_product
           Worlds.product_in_hand Example.world Example.request).
  - intros productId st b H. exact H.
  - simpl. right. right. left. reflexivity.
Defined.

(** ** Further properties of the two fetches *)

Lemma bind_silent_events {A B} (m : js A) (f : A -> js B) :
  (forall a, silent (f a)) ->
  now (bind m f) = now m /\ later (bind m f) = later m.
Proof.
  intros Hf. unfold bind. destruct (settled m) as [e | a]; simpl; [auto |].
  destruct (Hf a) as [-> ->]. rewrite !app_nil_r. auto.
Qed.

Lemma query_events (w : world) (q : gql_request) :
  now (query w q) = [RemoteCall q] /\ later (query w q) = [].
Proof. unfold query, bind. simpl. destruct (client_query w q); auto. Qed.

(** Every failed customer fetch has the same run: the call, one log, and
    the rejection with the fetch's own error. *)
Lemma fetchCustomerData_failed_run (w : world) (id : value) (e : exn) :
  settled (fetchCustomerData w id) = inl e ->
  exists cause,
    settled (p <- query w (CustomerById (to_string id));;
             response <- await p;;
             data <- get_prop response "data";;
             get_prop data "customer") = inl cause /\
    fetchCustomerData w id =
    Js [RemoteCall (CustomerById (to_string id));
        ConsoleError "Error fetching customer data:" cause] []
       (inl (Error "Failed to fetch customer data")).
Proof.
  unfold fetchCustomerData.
  set (body := bind (query w (CustomerById (to_string id))) _).
  assert (Hev : now body = [RemoteCall (CustomerById (to_string id))] /\
                later body = []).
  { unfold body.
    destruct (bind_silent_events (query w (CustomerById (to_string id)))
                (fun p => response <- await p;;
                          data <- get_prop response "data";;
                          get_prop data "customer")) as [Hn Hl].
    - intros p. silence.
    - rewrite Hn, Hl. apply query_events. }
  destruct Hev as [Hn Hl]. unfold try_catch.
  destruct (settled body) as [cause | c] eqn:Hs.
  - intros _. exists cause. split; [reflexivity |].
    rewrite Hn, Hl. reflexivity.
  - rewrite Hs. discriminate.
Qed.

(** The run of a request whose customer fetch fails, whatever the cause. *)
Lemma handler_customer_failed_run (fetchProduct : world -> value -> js value)
      (w : world) (q : list (string * value)) (e : exn) :
  truthy (lookup "user_id" q) = true ->
  settled (fetchCustomerData w (lookup "user_id" q)) = inl e ->
  exists cause,
    trace (users_handler_with fetchProduct w q) =
    [RemoteCall (CustomerById (to_string (lookup "user_id" q)));
     ConsoleError "Error fetching customer data:" cause;
     UnhandledRejection (Error "Failed to fetch customer data")].
Proof.
  intros Hu He.
  destruct (fetchCustomerData_failed_run _ _ He) as (cause & _ & E).
  exists cause. unfold users_handler_with. rewrite Hu. simpl. rewrite E.
  reflexivity.
Qed.

Lemma settled_bind_match {A B} (m : js A) (f : A -> js B) :
  settled (bind m f) =
  match settled m with
  | inl e => inl e
  | inr a => settled (f a)
  end.
Proof. unfold bind. destruct (settled m); reflexivity. Qed.

Lemma settled_query (w : world) (q : gql_request) :
  settled (query w q) =
  match client_query w q with
  | Throws e => inl e
  | Resolves response => inr (inr response)
  | Rejects e => inr (inl e)
  end.
Proof. unfold query, bind. simpl. destruct (client_query w q); reflexivity. Qed.

Lemma get_prop_throws (v : value) (k : string) (e : exn) :
  settled (get_prop v k) = inl e -> e = TypeError.
Proof. destruct v; simpl; congruence. Qed.

Lemma get_prop_not_nullish (v : value) (k : string) :
  nullish v = false -> exists x, get_prop v k = ret x.
Proof. destruct v; simpl; try discriminate; intros _; eexists; reflexivity. Qed.

(** X1: however the customer fetch fails, it has made its one call, it
    logs the cause once and rejects with "Failed to fetch customer data";
    the cause is what the client threw or rejected with, or the
    [TypeError] of reading [customer] off a response without [data]. *)
Theorem fetchCustomerData_failure (w : world) (id : value) (e : exn) :
  settled (fetchCustomerData w id) = inl e ->
  e = Error "Failed to fetch customer data" /\
  exists cause,
    trace (fetchCustomerData w id) =
      [RemoteCall (CustomerById (to_string id));
       ConsoleError "Error fetching customer data:" cause] /\
    (client_query w (CustomerById (to_string id)) = Throws cause \/
     client_query w (CustomerById (to_string id)) = Rejects cause \/
     exists response,
       client_query w (CustomerById (to_string id)) = Resolves response /\
       cause = TypeError).
Proof.
  intros He.
  destruct (fetchCustomerData_failed_run _ _ He) as (cause & Hbody & E).
  split; [rewrite E in He; simpl in He; congruence |].
  exists cause. split; [rewrite E; reflexivity |].
  rewrite settled_bind_match, settled_query in Hbody.
  destruct (client_query w (CustomerById (to_string id)))
    as [e1 | response | e1].
  - left. congruence.
  - right. right. exists response. split; [reflexivity |].
    rewrite settled_bind_match in Hbody. simpl in Hbody.
    rewrite settled_bind_match in Hbody.
    destruct (settled (get_prop response "data")) as [c1 | data] eqn:H1.
    + injection Hbody as <-. exact (get_prop_throws _ _ H1).
    + exact (get_prop_throws _ _ Hbody).
  - right. left.
    rewrite settled_bind_match in Hbody. simpl in Hbody. congruence.
Qed.

Lemma fetchCustomerData_failure_witness :
  Error "Failed to fetch customer data" =
    Error "Failed to fetch customer data" /\
  exists cause,
    trace (fetchCustomerData Faults.customer_errors (VStr "42")) =
      [RemoteCall (CustomerById "42");
       ConsoleError "Error fetching customer data:" cause] /\
    (client_query Faults.customer_errors (CustomerById "42") = Throws cause \/
     client_query Faults.customer_errors (CustomerById "42") = Rejects cause \/
     exists response,
       client_query Faults.customer_errors (CustomerById "42") =
         Resolves response /\
       cause = TypeError).
Proof.
  exact (@fetchCustomerData_failure
           Faults.customer_errors (VStr "42")
           (Error "Failed to fetch customer data") eq_refl).
Defined.

(** ** All the runs of the endpoint *)

(** Every run of the handler has one of the shapes of [run_shape]. *)
Lemma handler_runs (w : world) (q : list (string * value)) :
  run_shape (lookup "user_id" q) (trace (users_handler w q)).
Proof.
  unfold users_handler.
  destruct (truthy (lookup "user_id" q)) eqn:Hu.
  2: { rewrite (handler_missing _ _ _ Hu). constructor. }
  destruct (settled (fetchCustomerData w (lookup "user_id" q)))
    as [e | c] eqn:Hc.
  { destruct (handler_customer_failed_run fetchProductData w q Hu Hc)
      as [cause ->].
    constructor. }
  destruct (truthy c) eqn:Ht.
  2: { rewrite (handler_no_customer _ w q Hu Hc Ht). constructor. }
  destruct (db_query w (lookup "user_id" q)) as [err | [| row rows]] eqn:Hdb.
  - destruct (handler_customer fetchProductData w q Hu Hc Ht)
      as (fn & pi & _ & _ & ->).
    rewrite Hdb. apply run_store_error.
  - destruct (handler_customer fetchProductData w q Hu Hc Ht)
      as (fn & pi & _ & _ & ->).
    rewrite Hdb. apply run_favorite_not_found.
  - destruct (handler_reaches_product fetchProductData w q Hu Hc Ht Hdb)
      as (fn & pi & pid & _ & _ & _ & ->).
    rewrite product_chain_run. cbv zeta.
    destruct (client_query w (ProductById (to_string pid))) as [e1|r1|e1];
      destruct (client_query w (ProductImageList (to_string pid)))
        as [e2|r2|e2];
      try apply run_first_product_query_throws;
      try apply run_second_product_query_throws;
      match goal with
      | |- context [settled ?m] =>
          exact (run_product_not_found (lookup "user_id" q)
                                       (to_string pid) (settled m))
      end.
Qed.

Lemma length_responses_unhandled {A} (r : exn + A) :
  List.length (responses (unhandled r)) = 0%nat.
Proof. rewrite responses_unhandled. reflexivity. Qed.

(** X2: whatever the remote API and the local store do, a request gets
    at most one response: no path of the handler answers twice. *)
Theorem at_most_one_response (w : world) (q : list (string * value)) :
  (List.length (responses (trace (users_handler w q))) <= 1)%nat.
Proof.
  destruct (handler_runs w q);
    rewrite ?responses_app, ?responses_unhandled; simpl; auto.
Qed.

(** X3: a response, when there is one, is one of five: 400 for the
    missing parameter, 404 for the customer, the favorite or the product,
    500 for the store.  The 500 "Failed to fetch customer data" of
    line 138 is never sent. *)
Theorem responses_are_typed (w : world) (q : list (string * value))
        (status : Z) (body : value) :
  In (Respond status body) (trace (users_handler w q)) ->
  (status, body) = (400, error_body "Missing user_id query parameter") \/
  (status, body) = (404, error_body "Customer not found") \/
  (status, body) = (500, error_body "Database query error") \/
  (status, body) = (404, error_body "Favorite product not found") \/
  (status, body) = (404, error_body "Product not found").
Proof.
  intros H.
  destruct (handler_runs w q)
    as [ | | | | | | id cause [e | v] | id [e | v]];
    simpl in H;
    repeat match type of H with
           | _ \/ _ => destruct H as [H | H]
           | False => contradiction
           end;
    try discriminate H; injection H as <- <-; tauto.
Qed.

Lemma responses_are_typed_witness :
  (404, error_body "Customer not found") =
    (400, error_body "Missing user_id query parameter") \/
  (404, error_body "Customer not found") =
    (404, error_body "Customer not found") \/
  (404, error_body "Customer not found") =
    (500, error_body "Database query error") \/
  (404, error_body "Customer not found") =
    (404, error_body "Favorite product not found") \/
  (404, error_body "Customer not found") =
    (404, error_body "Product not found").
Proof.
  apply (@responses_are_typed Example.world [("user_id", VStr "7")]).
  simpl. right. left. reflexivity.
Defined.

(** X4: a request costs at most three calls to the remote API, the
    customer query first, and at most one query to the local store, whose
    parameter is the request's [user_id]; nothing is retried. *)
Theorem call_budget (w : world) (q : list (string * value)) :
  (List.length (remote_calls (trace (users_handler w q))) <= 3)%nat /\
  (remote_calls (trace (users_handler w q)) = [] \/
   hd_error (remote_calls (trace (users_handler w q))) =
     Some (CustomerById (to_string (lookup "user_id" q)))) /\
  (store_queries (trace (users_handler w q)) = [] \/
   store_queries (trace (users_handler w q)) = [lookup "user_id" q]).
Proof.
  destruct (handler_runs w q)
    as [ | | | | | | id cause [e | v] | id [e | v]]; simpl;
    repeat split; auto.
Qed.

(** X5: a customer query that resolves without [data] (a GraphQL error
    response) is not answered 404 "Customer not found": reading
    [customer] throws, the fetch rejects, and the request is left without
    a response. *)
Theorem customer_response_without_data (w : world)
        (q : list (string * value)) (response data : value) :
  truthy (lookup "user_id" q) = true ->
  client_query w (CustomerById (to_string (lookup "user_id" q))) =
    Resolves response ->
  get_prop_opt response "data" = ret data ->
  nullish data = true ->
  trace (users_handler w q) =
    [RemoteCall (CustomerById (to_string (lookup "user_id" q)));
     ConsoleError "Error fetching customer data:" TypeError;
     UnhandledRejection (Error "Failed to fetch customer data")].
Proof.
  intros Hu Hq Hd Hn.
  assert (E : fetchCustomerData w (lookup "user_id" q) =
              Js [RemoteCall (CustomerById (to_string (lookup "user_id" q)));
                  ConsoleError "Error fetching customer data:" TypeError] []
                 (inl (Error "Failed to fetch customer data"))).
  { unfold fetchCustomerData, query. rewrite Hq.
    unfold get_prop_opt in Hd.
    destruct response; simpl in Hd; try reflexivity;
      apply ret_inj in Hd; subst data;
      unfold try_catch, bind; simpl;
      match goal with
      | |- context [lookup ?k ?fs] =>
          destruct (lookup k fs); try discriminate Hn; reflexivity
      | _ => reflexivity
      end. }
  unfold users_handler, users_handler_with. rewrite Hu. simpl. rewrite E.
  reflexivity.
Qed.

Lemma customer_response_without_data_witness :
  trace (users_handler Faults.customer_errors Example.request) =
    [RemoteCall (CustomerById "42");
     ConsoleError "Error fetching customer data:" TypeError;
     UnhandledRejection (Error "Failed to fetch customer data")].
Proof.
  exact (@customer_response_without_data
           Faults.customer_errors Example.request _ VUndefined
           eq_refl eq_refl eq_refl eq_refl).
Defined.

(** ** Further properties of the product fetch *)

(** X6: [fetchProductData] never hands over a product.  In every world
    its promise is fulfilled with [undefined], unless one of its two calls
    throws before returning; then, and only then, it rejects, with
    "Failed to fetch product data".  Promises that are rejected do not
    make it reject. *)
Theorem fetchProductData_settles (w : world) (productId : value) :
  settled (fetchProductData w productId) =
  match client_query w (ProductById (to_string productId)),
        client_query w (ProductImageList (to_string productId)) with
  | Throws _, _ | _, Throws _ => inl (Error "Failed to fetch product data")
  | _, _ => inr VUndefined
  end.
Proof.
  rewrite fetchProductData_run. cbv zeta.
  destruct (client_query w (ProductById (to_string productId)));
    destruct (client_query w (ProductImageList (to_string productId)));
    reflexivity.
Qed.

(** X7: when the first product query throws, the media query is not
    sent; when it returns, the media query is sent, with the same
    identifier, whether or not the first one's promise is rejected.  The
    identifier is one that [to_string] prints as JavaScript does. *)
Theorem fetchProductData_calls (w : world) (productId : value) :
  printable productId = true ->
  remote_calls (trace (fetchProductData w productId)) =
  match client_query w (ProductById (to_string productId)) with
  | Throws _ => [ProductById (to_string productId)]
  | _ => [ProductById (to_string productId);
          ProductImageList (to_string productId)]
  end.
Proof.
  intros _. rewrite fetchProductData_run. cbv zeta.
  destruct (client_query w (ProductById (to_string productId))) as [e1|r1|e1];
    destruct (client_query w (ProductImageList (to_string productId)))
      as [e2|r2|e2];
    try reflexivity;
    unfold trace; simpl;
    match goal with
    | |- context [settled ?m] => destruct (settled m); reflexivity
    end.
Qed.

Lemma fetchProductData_calls_witness :
  remote_calls (trace (fetchProductData Worlds.product_api_throws (VNum 99)))
    = [ProductById "99"] /\
  remote_calls (trace (fetchProductData Faults.product_api_down (VNum 99)))
    = [ProductById "99"; ProductImageList "99"].
Proof.
  split.
  - exact (@fetchProductData_calls Worlds.product_api_throws (VNum 99)
                                   eq_refl).
  - exact (@fetchProductData_calls Faults.product_api_down (VNum 99)
                                   eq_refl).
Defined.

(** A product promise that is rejected before the media query throws is
    left without a handler: its rejection goes unhandled after the two
    logs. *)
Remark orphaned_product_promise :
  trace (users_handler Faults.product_down_media_throws Example.request) =
    [RemoteCall (CustomerById "42"); StoreQuery (VStr "42");
     RemoteCall (ProductById "99"); RemoteCall (ProductImageList "99");
     ConsoleError "Error fetching product data:" (Error "client closed");
     ConsoleError "Error fetching product data:"
                  (Error "Failed to fetch product data");
     UnhandledRejection (Error "socket hang up")].
Proof. reflexivity. Qed.



(** ** The merge callback *)

Lemma lookup_update_same (k : string) (v : value)
      (fs : list (string * value)) :
  lookup k (update k v fs) = v.
Proof.
  induction fs as [| [k' v'] fs IH]; simpl.
  - rewrite String.eqb_refl. reflexivity.
  - destruct (String.eqb k k') eqn:E; simpl.
    + rewrite String.eqb_refl. reflexivity.
    + rewrite E. exact IH.
Qed.

Lemma lookup_update_other (k k' : string) (v : value)
      (fs : list (string * value)) :
  k' <> k -> lookup k' (update k v fs) = lookup k' fs.
Proof.
  intros Hne. induction fs as [| [k0 v0] fs IH]; simpl.
  - apply String.eqb_neq in Hne. rewrite Hne. reflexivity.
  - destruct (String.eqb k k0) eqn:E; simpl.
    + apply String.eqb_eq in E. subst k0.
      apply String.eqb_neq in Hne. rewrite Hne. reflexivity.
    + destruct (String.eqb k' k0); [reflexivity | exact IH].
Qed.

Lemma settled_of_ret {A} (m : js A) (a : A) :
  m = ret a -> settled m = inr a.
Proof. intros ->. reflexivity. Qed.

(** One step of a chain of reads: the read [H] has returned. *)
Ltac read H := rewrite (settled_bind _ _ (settled_of_ret H)).

(** X9: when the first response has no product, the merge callback
    gives [null] and does not look at the media response at all, be it
    malformed. *)
Theorem merge_without_product (r1 r2 product : value) :
  settled (response_product r1) = inr product ->
  truthy product = false ->
  settled (merge_responses (r1, r2)) = inr VNull.
Proof.
  intros Hp Hf. unfold merge_responses. simpl fst.
  rewrite (settled_bind _ _ Hp), Hf. reflexivity.
Qed.

Lemma merge_without_product_witness :
  settled
    (merge_responses
       (VObj [("data", VObj [("product", VNull)])], VStr "Bad Gateway")) =
  inr VNull.
Proof.
  exact (@merge_without_product
           (VObj [("data", VObj [("product", VNull)])]) (VStr "Bad Gateway")
           VNull eq_refl eq_refl).
Defined.

(** X10: with a product and a first image node, the merge callback sets
    [product.image] to the node's [id] and [alt] and to the [url], [width]
    and [height] of the node's [image], replacing an [image] the product
    may have had; every other field of the product is as it was. *)
Theorem merge_attaches_image (r1 r2 image inner : value)
        (fields : list (string * value)) :
  settled (response_product r1) = inr (VObj fields) ->
  settled (response_first_image r2) = inr image ->
  truthy image = true ->
  get_prop image "image" = ret inner ->
  nullish inner = false ->
  exists id alt url width height merged_product,
    get_prop image "id" = ret id /\
    get_prop image "alt" = ret alt /\
    get_prop inner "url" = ret url /\
    get_prop inner "width" = ret width /\
    get_prop inner "height" = ret height /\
    settled (merge_responses (r1, r2)) = inr merged_product /\
    get_prop merged_product "image" =
      ret (VObj [("id", id); ("alt", alt); ("url", url);
                 ("width", width); ("height", height)]) /\
    (forall k, k <> "image" ->
               get_prop merged_product k = get_prop (VObj fields) k).
Proof.
  intros Hp Hi Hti Hin Hnn.
  destruct (get_prop_truthy image "id" Hti) as [id Hid].
  destruct (get_prop_truthy image "alt" Hti) as [alt Halt].
  destruct (get_prop_not_nullish inner "url" Hnn) as [url Hurl].
  destruct (get_prop_not_nullish inner "width" Hnn) as [width Hw].
  destruct (get_prop_not_nullish inner "height" Hnn) as [height Hh].
  exists id, alt, url, width, height.
  eexists. repeat (split; [eassumption |]).
  split; [| split].
  - unfold merge_responses. simpl fst. simpl snd.
    rewrite (settled_bind _ _ Hp). simpl negb. cbv iota.
    rewrite (settled_bind _ _ Hi), Hti.
    read Hid. read Halt. read Hin. read Hurl. read Hw. read Hh.
    reflexivity.
  - simpl. rewrite lookup_update_same. reflexivity.
  - intros k Hk. simpl. rewrite (lookup_update_other _ fields Hk).
    reflexivity.
Qed.

Lemma merge_attaches_image_witness :
  exists id alt url width height merged_product,
    get_prop Faults.image_node "id" = ret id /\
    get_prop Faults.image_node "alt" = ret alt /\
    get_prop (VObj [("width", VNum 640); ("height", VNum 480);
                    ("url", VStr "https://cdn/mug.png")]) "url" = ret url /\
    get_prop (VObj [("width", VNum 640); ("height", VNum 480);
                    ("url", VStr "https://cdn/mug.png")]) "width"
      = ret width /\
    get_prop (VObj [("width", VNum 640); ("height", VNum 480);
                    ("url", VStr "https://cdn/mug.png")]) "height"
      = ret height /\
    settled (merge_responses
               (Faults.product_response,
                Faults.media_response [Faults.image_node])) =
      inr merged_product /\
    get_prop merged_product "image" =
      ret (VObj [("id", id); ("alt", alt); ("url", url);
                 ("width", width); ("height", height)]) /\
    (forall k, k <> "image" ->
               get_prop merged_product k = get_prop Example.product k).
Proof.
  exact (@merge_attaches_image
           Faults.product_response (Faults.media_response [Faults.image_node])
           Faults.image_node _ _ eq_refl eq_refl eq_refl eq_refl eq_refl).
Defined.

(** X11: a first media node without an [image] of its own (a node that
    is not a [MediaImage]) makes the merge callback throw a [TypeError]:
    the product is not returned without its image. *)
Theorem merge_node_without_image (r1 r2 product image inner : value) :
  settled (response_product r1) = inr product ->
  truthy product = true ->
  settled (response_first_image r2) = inr image ->
  truthy image = true ->
  get_prop image "image" = ret inner ->
  nullish inner = true ->
  settled (merge_responses (r1, r2)) = inl TypeError.
Proof.
  intros Hp Htp Hi Hti Hin Hn.
  destruct (get_prop_truthy image "id" Hti) as [id Hid].
  destruct (get_prop_truthy image "alt" Hti) as [alt Halt].
  unfold merge_responses. simpl fst. simpl snd.
  rewrite (settled_bind _ _ Hp), Htp. simpl negb. cbv iota.
  rewrite (settled_bind _ _ Hi), Hti.
  read Hid. read Halt. read Hin.
  destruct inner; try discriminate Hn; reflexivity.
Qed.

Lemma merge_node_without_image_witness :
  settled
    (merge_responses
       (Faults.product_response,
        Faults.media_response [VObj [("id", VStr "gid://shopify/Video/3");
                                     ("alt", VStr "A clip")]])) =
  inl TypeError.
Proof.
  exact (@merge_node_without_image
           Faults.product_response
           (Faults.media_response [VObj [("id", VStr "gid://shopify/Video/3");
                                         ("alt", VStr "A clip")]])
           Example.product _ VUndefined
           eq_refl eq_refl eq_refl eq_refl eq_refl eq_refl).
Defined.

(** With a product and a first image node, what the merge callback
    returns, in full. *)
Lemma merge_with_image (r1 r2 image inner id alt url width height : value)
      (fields : list (string * value)) :
  settled (response_product r1) = inr (VObj fields) ->
  settled (response_first_image r2) = inr image ->
  truthy image = true ->
  get_prop image "id" = ret id ->
  get_prop image "alt" = ret alt ->
  get_prop image "image" = ret inner ->
  get_prop inner "url" = ret url ->
  get_prop inner "width" = ret width ->
  get_prop inner "height" = ret height ->
  settled (merge_responses (r1, r2)) =
  inr (VObj (update "image"
                    (VObj [("id", id); ("alt", alt); ("url", url);
                           ("width", width); ("height", height)])
                    fields)).
Proof.
  intros Hp Hi Hti Hid Halt Hin Hurl Hw Hh.
  unfold merge_responses. simpl fst. simpl snd.
  rewrite (settled_bind _ _ Hp). simpl negb. cbv iota.
  rewrite (settled_bind _ _ Hi), Hti.
  read Hid. read Halt. read Hin. read Hurl. read Hw. read Hh.
  reflexivity.
Qed.

(** ** The success callback *)

(** X12: the 200 body has a fixed shape.  [firstName] and [profileImage]
    go through as they are; of the product only [id], [title],
    [description] and [onlineStoreUrl] are copied, and [image] is [null]
    when the product has none. *)
Theorem success_body_without_image (firstName profileImage productData
                                    image : value) :
  truthy productData = true ->
  get_prop productData "image" = ret image ->
  truthy image = false ->
  exists id title description onlineStoreUrl,
    get_prop productData "id" = ret id /\
    get_prop productData "title" = ret title /\
    get_prop productData "description" = ret description /\
    get_prop productData "onlineStoreUrl" = ret onlineStoreUrl /\
    on_product firstName profileImage productData =
    respond 200
      (VObj [("firstName", firstName);
             ("profileImage", profileImage);
             ("product",
              VObj [("id", id); ("title", title);
                    ("description", description);
                    ("onlineStoreUrl", onlineStoreUrl);
                    ("image", VNull)])]).
Proof.
  intros Ht Hi Hf.
  destruct (get_prop_truthy productData "id" Ht) as [id Hid].
  destruct (get_prop_truthy productData "title" Ht) as [title Htitle].
  destruct (get_prop_truthy productData "description" Ht) as [descr Hd].
  destruct (get_prop_truthy productData "onlineStoreUrl" Ht) as [url Hurl].
  exists id, title, descr, url. repeat (split; [assumption |]).
  unfold on_product. rewrite Ht, Hid, Htitle, Hd, Hurl, Hi. simpl.
  unfold bind at 1 2 3 4 5. simpl. rewrite Hf. reflexivity.
Qed.

Lemma success_body_without_image_witness :
  exists id title description onlineStoreUrl,
    get_prop Example.product "id" = ret id /\
    get_prop Example.product "title" = ret title /\
    get_prop Example.product "description" = ret description /\
    get_prop Example.product "onlineStoreUrl" = ret onlineStoreUrl /\
    on_product (VStr "Ana") VNull Example.product =
    respond 200
      (VObj [("firstName", VStr "Ana");
             ("profileImage", VNull);
             ("product",
              VObj [("id", id); ("title", title);
                    ("description", description);
                    ("onlineStoreUrl", onlineStoreUrl);
                    ("image", VNull)])]).
Proof.
  exact (@success_body_without_image
           (VStr "Ana") VNull Example.product VUndefined
           eq_refl eq_refl eq_refl).
Defined.

(** X13: the two callbacks fit together.  Handed what the merge callback
    returns for a product with a first image node, the success callback
    answers 200 with the product's four fields as the product query gave
    them and with the five image fields of the node. *)
Theorem merged_product_in_body (firstName profileImage r1 r2 image inner
                                id alt url width height merged_product : value)
        (fields : list (string * value)) :
  settled (response_product r1) = inr (VObj fields) ->
  settled (response_first_image r2) = inr image ->
  truthy image = true ->
  get_prop image "id" = ret id ->
  get_prop image "alt" = ret alt ->
  get_prop image "image" = ret inner ->
  get_prop inner "url" = ret url ->
  get_prop inner "width" = ret width ->
  get_prop inner "height" = ret height ->
  settled (merge_responses (r1, r2)) = inr merged_product ->
  on_product firstName profileImage merged_product =
  respond 200
    (VObj [("firstName", firstName);
           ("profileImage", profileImage);
           ("product",
            VObj [("id", lookup "id" fields);
                  ("title", lookup "title" fields);
                  ("description", lookup "description" fields);
                  ("onlineStoreUrl", lookup "onlineStoreUrl" fields);
                  ("image",
                   VObj [("id", id); ("alt", alt); ("url", url);
                         ("width", width); ("height", height)])])]).
Proof.
  intros Hp Hi Hti Hid Halt Hin Hurl Hw Hh Hm.
  rewrite (merge_with_image r1 r2 Hp Hi Hti Hid Halt Hin Hurl Hw Hh) in Hm.
  injection Hm as <-.
  unfold on_product. simpl.
  rewrite lookup_update_same.
  rewrite !lookup_update_other by discriminate.
  reflexivity.
Qed.

Lemma merged_product_in_body_witness :
  on_product (VStr "Ana") VNull
    (VObj [("id", VNum 99); ("title", VStr "Mug");
           ("description", VStr "Ceramic");
           ("onlineStoreUrl", VStr "https://shop/mug");
           ("image", Faults.image_fields)]) =
  respond 200
    (VObj [("firstName", VStr "Ana");
           ("profileImage", VNull);
           ("product",
            VObj [("id", VNum 99); ("title", VStr "Mug");
                  ("description", VStr "Ceramic");
                  ("onlineStoreUrl", VStr "https://shop/mug");
                  ("image", Faults.image_fields)])]).
Proof.
  exact (@merged_product_in_body
           (VStr "Ana") VNull
           Faults.product_response (Faults.media_response [Faults.image_node])
           Faults.image_node _ _ _ _ _ _ _ _
           eq_refl eq_refl eq_refl eq_refl eq_refl eq_refl eq_refl eq_refl
           eq_refl eq_refl).
Defined.

(** ** The product chain *)

(** X14: the second [catch] of the product chain (lines 136-139) is
    dead code, whatever the product fetch does: the callback of the first
    one logs and returns, so the chain is the chain without the second. *)
Theorem second_catch_is_dead (fetchProduct : world -> value -> js value)
        (w : world) (firstName profileImage productId : value) :
  product_chain fetchProduct w firstName profileImage productId =
  try_catch
    (productData <- fetchProduct w productId;;
     on_product firstName profileImage productData)
    (fun error => console_error "Error fetching product data:" error).
Proof.
  unfold product_chain.
  set (inner := try_catch _ (fun error => console_error _ error)).
  assert (Hs : exists u, settled inner = inr u).
  { unfold inner, try_catch.
    destruct (settled (productData <- fetchProduct w productId;;
                       on_product firstName profileImage productData))
      as [e | u] eqn:Hs.
    - exists tt. reflexivity.
    - exists u. assumption. }
  destruct Hs as [u Hs]. unfold try_catch at 1. rewrite Hs. reflexivity.
Qed.

(** X15: the product is looked up with what the first row holds in
    [favorite_product_id], interpolated as it is and not validated
    ([undefined] when the column is missing); later rows are not looked
    at.  The product query comes after the store query, which comes after
    the customer query.  The column holds a value that [to_string] prints
    as JavaScript does. *)
Theorem product_lookup_uses_first_row (w : world)
        (q : list (string * value)) (c row favoriteProductId : value)
        (rows : list value) :
  truthy (lookup "user_id" q) = true ->
  settled (fetchCustomerData w (lookup "user_id" q)) = inr c ->
  truthy c = true ->
  db_query w (lookup "user_id" q) = DbRows (row :: rows) ->
  get_prop_opt row "favorite_product_id" = ret favoriteProductId ->
  printable favoriteProductId = true ->
  exists rest,
    trace (users_handler w q) =
    RemoteCall (CustomerById (to_string (lookup "user_id" q))) ::
    StoreQuery (lookup "user_id" q) ::
    RemoteCall (ProductById (to_string favoriteProductId)) :: rest.
Proof.
  intros Hu Hc Ht Hdb Hrow _. unfold users_handler.
  destruct (handler_reaches_product fetchProductData w q Hu Hc Ht Hdb)
    as (firstName & profileImage & pid & _ & _ & Hpid & ->).
  rewrite Hrow in Hpid. apply ret_inj in Hpid. subst pid.
  rewrite product_chain_run. cbv zeta.
  destruct (client_query w (ProductById (to_string favoriteProductId)));
    destruct (client_query w (ProductImageList
                                (to_string favoriteProductId)));
    eexists; reflexivity.
Qed.

Lemma product_lookup_uses_first_row_witness :
  exists rest,
    trace (users_handler Faults.row_without_column Example.request) =
    RemoteCall (CustomerById "42") :: StoreQuery (VStr "42") ::
    RemoteCall (ProductById "undefined") :: rest.
Proof.
  exact (@product_lookup_uses_first_row
           Faults.row_without_column Example.request Example.customer
           (VObj [("shopify_customer_id", VStr "42")]) VUndefined
           [VObj [("favorite_product_id", VNum 99)]]
           eq_refl eq_refl eq_refl eq_refl eq_refl eq_refl).
Defined.

(** ** Partial data *)

(** Takes a hypothesis that puts a response in a list written out in full
    to the one response of the list. *)
Ltac the_response H :=
  unfold error_body in H; simpl in H;
  repeat match type of H with
         | _ \/ _ => destruct H as [H | H]
         | False => contradiction
         end;
  try discriminate H; injection H as <- <-.

(** C9: no response carries partial data.  The 200 body of lines 117-133
    is the only place where the handler sends what it has fetched, and no
    run gets there: every response of every run is a failure, an object
    with the one field [error].  In particular a run that has fetched a
    customer profile answers with one of the three failures of the later
    stages, not with the profile; and a product is asked for only after a
    customer profile was fetched. *)
Theorem no_partial_success (w : world) (q : list (string * value))
        (status : Z) (body : value) :
  In (Respond status body) (trace (users_handler w q)) ->
  status <> 200 /\
  (exists message, body = VObj [("error", VStr message)]) /\
  (forall customerData,
      truthy (lookup "user_id" q) = true ->
      settled (fetchCustomerData w (lookup "user_id" q)) = inr customerData ->
      truthy customerData = true ->
      (status, body) = (500, error_body "Database query error") \/
      (status, body) = (404, error_body "Favorite product not found") \/
      (status, body) = (404, error_body "Product not found")) /\
  (forall call,
      In (RemoteCall call) (trace (users_handler w q)) ->
      call = CustomerById (to_string (lookup "user_id" q)) \/
      exists customerData,
        truthy (lookup "user_id" q) = true /\
        settled (fetchCustomerData w (lookup "user_id" q)) =
          inr customerData /\
        truthy customerData = true).
Proof.
  intros H. unfold users_handler in *.
  destruct (truthy (lookup "user_id" q)) eqn:Hu.
  2: { rewrite (handler_missing _ _ _ Hu) in *. the_response H.
       split; [discriminate |]. split; [eexists; reflexivity |].
       split; [discriminate |]. intros call Hin. absent Hin. }
  destruct (settled (fetchCustomerData w (lookup "user_id" q)))
    as [e | c] eqn:Hc.
  { exfalso. revert H.
    apply handler_customer_failed with (e := e); assumption. }
  destruct (truthy c) eqn:Ht.
  2: { rewrite (handler_no_customer _ w q Hu Hc Ht) in *. the_response H.
       split; [discriminate |]. split; [eexists; reflexivity |]. split.
       - intros cd _ Hcd Htcd. congruence.
       - intros call [Hin | Hin]; [left; congruence | absent Hin]. }
  assert (Hfetched : exists customerData : value,
             true = true /\ @inr exn value c = inr customerData /\
             truthy customerData = true).
  { exists c. auto. }
  destruct (db_query w (lookup "user_id" q)) as [err | [| row rows]] eqn:Hdb.
  - destruct (handler_customer fetchProductData w q Hu Hc Ht)
      as (fn & pi & _ & _ & E).
    rewrite E, Hdb in *. the_response H.
    split; [discriminate |]. split; [eexists; reflexivity |].
    split; [intros; auto | intros; right; exact Hfetched].
  - destruct (handler_customer fetchProductData w q Hu Hc Ht)
      as (fn & pi & _ & _ & E).
    rewrite E, Hdb in *. the_response H.
    split; [discriminate |]. split; [eexists; reflexivity |].
    split; [intros; auto | intros; right; exact Hfetched].
  - destruct (handler_reaches_product fetchProductData w q Hu Hc Ht Hdb)
      as (fn & pi & pid & _ & _ & _ & E).
    rewrite E, product_chain_run in *. cbv zeta in *. clear E.
    destruct (client_query w (ProductById (to_string pid))) as [e1|r1|e1];
      destruct (client_query w (ProductImageList (to_string pid)))
        as [e2|r2|e2];
      unfold trace, unhandled, promise in H; simpl in H;
      repeat match type of H with
             | context [settled ?m] => destruct (settled m)
             end;
      the_response H;
      (split; [discriminate |]; split; [eexists; reflexivity |];
       split; [intros; auto | intros; right; exact Hfetched]).
Qed.

Lemma no_partial_success_witness :
  404 <> 200 /\
  (exists message,
      error_body "Product not found" = VObj [("error", VStr message)]) /\
  (forall customerData,
      truthy (lookup "user_id" Example.request) = true ->
      settled (fetchCustomerData Example.world
                                 (lookup "user_id" Example.request)) =
        inr customerData ->
      truthy customerData = true ->
      (404, error_body "Product not found") =
        (500, error_body "Database query error") \/
      (404, error_body "Product not found") =
        (404, error_body "Favorite product not found") \/
      (404, error_body "Product not found") =
        (404, error_body "Product not found")) /\
  (forall call,
      In (RemoteCall call)
         (trace (users_handler Example.world Example.request)) ->
      call = CustomerById (to_string (lookup "user_id" Example.request)) \/
      exists customerData,
        truthy (lookup "user_id" Example.request) = true /\
        settled (fetchCustomerData Example.world
                                   (lookup "user_id" Example.request)) =
          inr customerData /\
        truthy customerData = true).
Proof.
  apply (@no_partial_success Example.world Example.request 404
                             (error_body "Product not found")).
  simpl. right. right. right. right. left. reflexivity.
Defined.
